(** * nextq: the session authentication subsystem

    A shallow embedding of [modules/auth/api] (utils.ts, models.ts and the
    GraphQL resolvers of typeDefs.ts) and of the properties its
    specification states about it.

    The JavaScript code is asynchronous, throws and catches exceptions and
    mutates two shared objects: the users collection and the outbound
    response.  It is embedded in a state-and-exception monad [M] over a
    [World] that holds both objects, the clock and the next id the driver
    mints.  The third-party packages (jsonwebtoken, bson/mongodb's ObjectID,
    cookie, bcryptjs) are not part of the repository: they are interfaces
    (type classes) here, and every result holds for any implementation. *)

From Stdlib Require Import ZArith String Ascii List Bool Lia.
Import ListNotations.
Local Open Scope string_scope.
Local Open Scope Z_scope.

Set Implicit Arguments.

(* ===================================================================== *)
(** ** JavaScript odds and ends *)

(** The exceptions that occur in the subsystem.  The first three are the
    error classes of jsonwebtoken, for what its [verify] throws;
    [MongoError] is the driver's; [Error] is a plain [new Error(msg)]: those
    of the source, the one jsonwebtoken's [sign] throws on an empty secret
    and the one [new ObjectID] throws on a malformed id. *)
Inductive exn : Type :=
| JsonWebTokenError (msg : string)
| TokenExpiredError
| NotBeforeError
| MongoError (msg : string)
| Error (msg : string).

(** The result of running a piece of code: a value or a thrown exception
    (a rejected promise, for an async function). *)
Inductive outcome (A : Type) : Type :=
| Return (a : A)
| Throw (e : exn).
Arguments Return {A} a.
Arguments Throw {A} e.

(** [v || ''] and [if (v)] on a value of type [string | undefined]:
    [undefined] and the empty string are falsy. *)
Definition truthy (v : option string) : option string :=
  match v with
  | Some s => if (s =? "")%string then None else Some s
  | None => None
  end.

Definition or_empty (v : option string) : string :=
  match truthy v with
  | Some s => s
  | None => ""
  end.

(** [Boolean(v)] on [boolean | null | undefined]. *)
Definition Boolean (v : option bool) : bool :=
  match v with
  | Some b => b
  | None => false
  end.

(** [s.replace(pat, rep)] with a string pattern: the first occurrence of
    [pat] in [s], wherever it is, is replaced; [s] is returned unchanged
    when there is none. *)
Fixpoint replace (pat rep s : string) : string :=
  if String.prefix pat s
  then rep ++ String.substring (String.length pat)
                               (String.length s - String.length pat) s
  else match s with
       | EmptyString => EmptyString
       | String c s' => String c (replace pat rep s')
       end.

(** The number of dots of a string: jsonwebtoken splits a token at its
    dots and wants three segments. *)
Fixpoint dots (s : string) : nat :=
  match s with
  | EmptyString => O
  | String c s' => ((if Ascii.eqb c "." then 1 else 0) + dots s')%nat
  end.

(** The two time spans the source passes as [expiresIn], in seconds, as
    jsonwebtoken reads them (15 minutes; 7 days). *)
Definition timespan (expiresIn : string) : option Z :=
  if (expiresIn =? "15min")%string then Some (15 * 60)
  else if (expiresIn =? "7d")%string then Some (7 * 24 * 60 * 60)
  else None.

(* ===================================================================== *)
(** ** The third-party packages, as interfaces *)

(** The payload of a token.  [sign] receives [{ userId }] or
    [{ userId, count }]; [verify] returns the payload with the [iat] and
    [exp] fields jsonwebtoken adds.  The source reads the fields [userId]
    and [count] at the types it asserts with [as]; a field that is missing
    is [undefined], here [None]. *)
Module Payload.
Record t : Type := mk {
  userId : option string;
  count : option Z;
  iat : option Z;
  exp : option Z
}.
End Payload.

(** jsonwebtoken.  [jwt_sign data secret expiresIn clock] is what
    [sign(data, secret, { expiresIn })] returns on a secret that is not
    empty, when the clock reads [clock] (seconds); [jwt_verify token secret
    clock] is [verify(token, secret)] on a token that is not empty, which
    returns the payload or throws.  What the package does on an empty secret
    or token is written in [sign] and [verify] below. *)
Class JsonWebToken : Type := {
  jwt_sign : Payload.t -> string -> string -> Z -> string;
  jwt_verify : string -> string -> Z -> outcome Payload.t
}.

(** What jsonwebtoken promises of a token it has signed itself: it is not
    the empty string, and until its expiry it verifies, under the secret it
    was signed with, to the data that was signed, stamped with the issue and
    expiry times.  (An empty secret is refused by the package.) *)
Definition jwt_round_trip `{JsonWebToken} : Prop :=
  forall data secret expiresIn ttl issued clock,
    secret <> ""%string ->
    timespan expiresIn = Some ttl ->
    issued <= clock < issued + ttl ->
    jwt_sign data secret expiresIn issued <> ""%string
    /\ jwt_verify (jwt_sign data secret expiresIn issued) secret clock
       = Return (Payload.mk (Payload.userId data) (Payload.count data)
                            (Some issued) (Some (issued + ttl))).

(** A token is refused once its time is over. *)
Definition jwt_expires `{JsonWebToken} : Prop :=
  forall data secret expiresIn ttl issued clock,
    secret <> ""%string ->
    timespan expiresIn = Some ttl ->
    issued + ttl <= clock ->
    jwt_verify (jwt_sign data secret expiresIn issued) secret clock
    = Throw TokenExpiredError.

(** A token is refused under another secret than the one it was signed
    with (the signature is taken to have no collision). *)
Definition jwt_wrong_secret `{JsonWebToken} : Prop :=
  forall data signed_with secret expiresIn issued clock,
    signed_with <> ""%string ->
    secret <> ""%string ->
    signed_with <> secret ->
    jwt_verify (jwt_sign data signed_with expiresIn issued) secret clock
    = Throw (JsonWebTokenError "invalid signature").

(** A string, not empty, that is not three segments between two dots is
    refused. *)
Definition jwt_malformed `{JsonWebToken} : Prop :=
  forall token secret clock,
    token <> ""%string ->
    dots token <> 2%nat ->
    jwt_verify token secret clock
    = Throw (JsonWebTokenError "jwt malformed").

(** bson's ObjectID.  [ObjectID_parse s] is [new ObjectID(s)] on a string:
    the id, or [None] when the constructor throws (neither 24 hexadecimal
    characters nor 12 bytes); [toHexString] is the method of that name and
    also [toString()]. *)
Class Bson : Type := {
  ObjectID : Type;
  ObjectID_eq_dec : forall a b : ObjectID, {a = b} + {a <> b};
  ObjectID_parse : string -> option ObjectID;
  toHexString : ObjectID -> string
}.

(** An id is read back from its own hexadecimal form. *)
Definition hex_round_trip `{Bson} : Prop :=
  forall o : ObjectID, ObjectID_parse (toHexString o) = Some o.

(** cookie.  [parse header name] is [parse(header)[name]];
    [serialize name value maxAge] is [serialize(name, value, { maxAge })]. *)
Class Cookie : Type := {
  parse : string -> string -> option string;
  serialize : string -> string -> Z -> string
}.

(** bcryptjs. *)
Class Bcrypt : Type := {
  hash : string -> Z -> string;
  compare : string -> string -> bool
}.

(* ===================================================================== *)
(** ** Data model, world and the monad of effects *)

(** models.ts, [interface User].  [count] is the revocation counter, a
    JavaScript number: it is an integer here, and [count + 1] is the
    integer sum, which is what the code computes for a count within the safe
    integers; the properties of a revocation assume that much of it. *)
Module User.
Record t {bson : Bson} : Type := mk {
  _id : ObjectID;
  email : string;
  passwordHash : string;
  count : Z
}.
Arguments mk {bson} _ _ _ _.
End User.

(** utils.ts, [interface AuthTokens]. *)
Module AuthTokens.
Record t : Type := mk {
  accessToken : string;
  refreshToken : string
}.
End AuthTokens.

(** typeDefs.ts, [AuthPayload]: what [signInHelper] returns. *)
Module AuthPayload.
Record t : Type := mk {
  refreshToken : string;
  accessToken : string;
  count : Z
}.
End AuthPayload.

(** utils.ts, [type VerifiedRefreshToken], without its [| null]. *)
Module VerifiedRefreshToken.
Record t : Type := mk {
  userId : option string;
  count : option Z
}.
End VerifiedRefreshToken.

(** The outbound response: its headers, a name with its list of values. *)
Record ServerResponse : Type := {
  headers : list (string * list string)
}.

(** The inbound request: [req.headers.cookie] and
    [req.headers.authorization]. *)
Record IncomingMessage : Type := {
  cookie : option string;
  authorization : option string
}.

(** Everything the code reads or mutates: the documents of the users
    collection in insertion order, the response of the request being
    served, the clock in seconds, and the id that [new ObjectID()] mints. *)
Record World {bson : Bson} : Type := {
  users : list User.t;
  response : ServerResponse;
  now : Z;
  fresh : ObjectID
}.

Definition with_users {bson : Bson} (w : World) (us : list User.t) : World :=
  {| users := us; response := response w; now := now w; fresh := fresh w |}.

Definition with_response {bson : Bson} (w : World) (r : ServerResponse)
  : World :=
  {| users := users w; response := r; now := now w; fresh := fresh w |}.

(** A computation: from a world to a value or an exception, and the world
    it leaves behind. *)
Definition M {bson : Bson} (A : Type) : Type := World -> outcome A * World.

Section Monad.
Context {bson : Bson}.

Definition ret {A} (a : A) : M A := fun w => (Return a, w).

Definition throw {A} (e : exn) : M A := fun w => (Throw e, w).

Definition bind {A B} (m : M A) (k : A -> M B) : M B :=
  fun w => match m w with
           | (Return a, w') => k a w'
           | (Throw e, w') => (Throw e, w')
           end.

(** [try { m } catch { h }]: the effects [m] had before it threw stay. *)
Definition try_catch {A} (m : M A) (h : M A) : M A :=
  fun w => match m w with
           | (Return a, w') => (Return a, w')
           | (Throw _, w') => h w'
           end.

(** [m] under a [try], its result or exception handed to the rest of the
    function: for a [try] block whose last statement returns a promise
    without awaiting it, so that only what precedes is caught. *)
Definition attempt {A} (m : M A) : M (outcome A) :=
  fun w => match m w with
           | (r, w') => (Return r, w')
           end.

End Monad.

Notation "x <- c ;; k" := (bind c (fun x => k))
  (at level 61, c at next level, right associativity).
Notation "c ;;; k" := (bind c (fun _ => k))
  (at level 61, right associativity).

(* ===================================================================== *)
(** ** The users collection (MongoEntity<User>) *)

Section Collection.
Context {bson : Bson}.

(** The two query documents the source builds: [{ email }] and
    [{ _id }]. *)
Inductive Filter : Type :=
| by_email (email : string)
| by_id (_id : ObjectID).

Definition matches (q : Filter) (u : User.t) : bool :=
  match q with
  | by_email e => (User.email u =? e)%string
  | by_id o => if ObjectID_eq_dec (User._id u) o then true else false
  end.

(** The one update document the source builds:
    [{ $set: { count: n } }]. *)
Inductive Update : Type :=
| set_count (n : Z).

Definition apply_update (d : Update) (u : User.t) : User.t :=
  match d with
  | set_count n =>
      User.mk (User._id u) (User.email u) (User.passwordHash u) n
  end.

(** [findOne(q)]: the first document that matches, or [null]. *)
Definition findOne (q : Filter) : M (option User.t) :=
  fun w => (Return (find (matches q) (users w)), w).

(** [insertOne(doc)]: the document is appended and its id returned;
    [_id] is a unique key. *)
Definition insertOne (doc : User.t) : M ObjectID :=
  fun w =>
    match find (matches (by_id (User._id doc))) (users w) with
    | Some _ => (Throw (MongoError "E11000 duplicate key error"), w)
    | None => (Return (User._id doc), with_users w (users w ++ [doc]))
    end.

(** The first document that matches [q] is replaced by its update; the
    second component is [modifiedCount], which counts a document only when
    the update changed it. *)
Fixpoint update_first (q : Filter) (d : Update) (l : list User.t)
  : list User.t * Z :=
  match l with
  | [] => ([], 0)
  | u :: l' =>
      if matches q u
      then (apply_update d u :: l',
            if User.count (apply_update d u) =? User.count u then 0 else 1)
      else let (l'', n) := update_first q d l' in (u :: l'', n)
  end.

(** [updateOne(q, d)], returning [modifiedCount]. *)
Definition updateOne (q : Filter) (d : Update) : M Z :=
  fun w => let (us, n) := update_first q d (users w) in
           (Return n, with_users w us).

(** [new ObjectID(id)]: a new id when [id] is [undefined], the id read
    from the string otherwise, or the [Error] of the constructor.  The
    generator is not advanced here: [fresh] is the id of the one document a
    run may create, and a later run starts from a world with another. *)
Definition new_ObjectID (id : option string) : M ObjectID :=
  match id with
  | None => fun w => (Return (fresh w), w)
  | Some s =>
      match ObjectID_parse s with
      | Some o => ret o
      | None => throw (Error "Argument passed in must be a single String of 12 bytes or a string of 24 hex characters")
      end
  end.
End Collection.

(* ===================================================================== *)
(** ** models.ts *)

(** [interface UserModel] ([findUser], which no caller uses, is left out).
    [findUserById] is declared on a string; a caller that read the id from a
    payload without the field passes [undefined]. *)
Module UserModel.
Record t {bson : Bson} : Type := mk {
  isUser : string -> M bool;
  findUserByEmail : string -> M (option User.t);
  findUserById : option string -> M (option User.t);
  createNewUser : string -> string -> M User.t;
  updateUser : string -> Update -> M bool
}.
End UserModel.

Section Models.
Context {bson : Bson} {bcrypt : Bcrypt}.

Definition findUserByEmail (email : string) : M (option User.t) :=
  findOne (by_email email).

Definition findUserById (id : option string) : M (option User.t) :=
  o <- new_ObjectID id ;;
  findOne (by_id o).

Definition isUser (email : string) : M bool :=
  u <- findUserByEmail email ;;
  ret (match u with Some _ => true | None => false end).

Definition createNewUser (email password : string) : M User.t :=
  _id <- new_ObjectID None ;;
  let doc := User.mk _id email (hash password 10) 0 in
  insertedId <- insertOne doc ;;
  ret (User.mk insertedId (User.email doc) (User.passwordHash doc)
               (User.count doc)).

Definition updateUser (id : string) (data : Update) : M bool :=
  o <- new_ObjectID (Some id) ;;
  modifiedCount <- updateOne (by_id o) data ;;
  ret (modifiedCount =? 1).

Definition generateUserModel : UserModel.t :=
  UserModel.mk isUser findUserByEmail findUserById createNewUser
               updateUser.
End Models.

(* ===================================================================== *)
(** ** utils.ts *)

(** [interface TokenGenerator]. *)
Module TokenGenerator.
Record t {bson : Bson} : Type := mk {
  accessToken : string -> M string;
  refreshToken : string -> Z -> M string;
  verifyRefreshToken : string -> M (option VerifiedRefreshToken.t);
  verifyAccessToken : string -> M (option (option string))
}.
End TokenGenerator.

Section Utils.
Context {bson : Bson} {jwt : JsonWebToken} {cookie_pkg : Cookie}
        {bcrypt : Bcrypt}.

(** [sign(data, secret, { expiresIn })] reads the clock; jsonwebtoken
    throws on an empty secret, which is what env.ts gives when the
    environment has none. *)
Definition sign (data : Payload.t) (secret expiresIn : string) : M string :=
  if (secret =? "")%string
  then throw (Error "secretOrPrivateKey must have a value")
  else fun w => (Return (jwt_sign data secret expiresIn (now w)), w).

(** [verify(token, secret)].  The token may be [undefined] or empty (a
    cookie that was not sent): jsonwebtoken then throws before it looks at
    anything else. *)
Definition verify (token : option string) (secret : string) : M Payload.t :=
  match truthy token with
  | None => throw (JsonWebTokenError "jwt must be provided")
  | Some t => fun w => (jwt_verify t secret (now w), w)
  end.

Definition tokenGenerator (data : Payload.t) (secret expiresIn : string)
  : M string :=
  sign data secret expiresIn.

Definition accessTokenGenerator (userId secret : string) : M string :=
  tokenGenerator (Payload.mk (Some userId) None None None) secret "15min".

Definition refreshTokenGenerator (userId : string) (count : Z)
           (secret : string) : M string :=
  tokenGenerator (Payload.mk (Some userId) (Some count) None None)
                 secret "7d".

(** The result is [null] ([None]) or the [userId] field of the payload,
    which is [undefined] ([Some None]) when the payload has none. *)
Definition verifyAccessToken (token accessSecret : string)
  : M (option (option string)) :=
  try_catch
    (p <- verify (Some token) accessSecret ;;
     ret (Some (Payload.userId p)))
    (ret None).

Definition verifyRefreshToken (token refreshSecret : string)
  : M (option VerifiedRefreshToken.t) :=
  try_catch
    (p <- verify (Some token) refreshSecret ;;
     ret (Some (VerifiedRefreshToken.mk (Payload.userId p)
                                        (Payload.count p))))
    (ret None).

Definition tokenGeneratorWithSecrets (accessSecret refreshSecret : string)
  : TokenGenerator.t :=
  TokenGenerator.mk
    (fun userId => accessTokenGenerator userId accessSecret)
    (fun userId count => refreshTokenGenerator userId count refreshSecret)
    (fun token => verifyRefreshToken token refreshSecret)
    (fun token => verifyAccessToken token accessSecret).

Definition signInVerifiedUser (userId : string) (count : Z)
           (tokenGenerator : TokenGenerator.t) : M AuthTokens.t :=
  accessToken <- TokenGenerator.accessToken tokenGenerator userId ;;
  refreshToken <- TokenGenerator.refreshToken tokenGenerator userId count ;;
  ret (AuthTokens.mk accessToken refreshToken).

(** [res.setHeader(name, value)]: the header is set, replacing what it
    held. *)
Definition setHeader (name : string) (value : list string) : M unit :=
  fun w =>
    (Return tt,
     with_response w
       {| headers :=
            (name, value)
            :: filter (fun h => negb (fst h =? name)%string)
                      (headers (response w)) |}).

Definition addTokensToCookies (tokens : AuthTokens.t) : M unit :=
  setHeader "Set-Cookie"
    [ serialize "refresh-token" (AuthTokens.refreshToken tokens)
                (60 * 60 * 24 * 7);
      serialize "access-token" (AuthTokens.accessToken tokens)
                (60 * 60 * 15) ].

(** [count === user.count] (and [user.count == data.count]) between the
    field read from a payload and a stored counter. *)
Definition count_eq (count : option Z) (stored : Z) : bool :=
  match count with
  | Some c => c =? stored
  | None => false
  end.

Definition getActiveUser (req : IncomingMessage)
           (accessTokenSecret refreshTokenSecret : string)
           (models : UserModel.t) : M (option User.t) :=
  (* 1. extract tokens *)
  let cookies := parse (or_empty (cookie req)) in
  let oldAccessToken := cookies "access-token" in
  let oldRefreshToken := cookies "refresh-token" in
  let bearerToken := authorization req in
  match truthy bearerToken with
  | Some bearerToken =>
      let token := replace "Bearer " "" bearerToken in
      r <- attempt (verify (Some token) accessTokenSecret) ;;
      match r with
      | Return p => UserModel.findUserById models (Payload.userId p)
      | Throw _ => ret None
      end
  | None =>
      match truthy oldAccessToken, truthy oldRefreshToken with
      | None, None => ret None
      | _, _ =>
          (* 2. extract userId from accessToken; 3. get user info *)
          r <- attempt (verify oldAccessToken accessTokenSecret) ;;
          match r with
          | Return p => UserModel.findUserById models (Payload.userId p)
          | Throw _ =>
              (* 4. if accessToken not valid, use the refreshToken *)
              try_catch
                (p <- verify oldRefreshToken refreshTokenSecret ;;
                 user <- UserModel.findUserById models (Payload.userId p) ;;
                 match user with
                 | Some user =>
                     if count_eq (Payload.count p) (User.count user)
                     then
                       let tokenGenerator :=
                         tokenGeneratorWithSecrets accessTokenSecret
                                                   refreshTokenSecret in
                       accessToken <-
                         TokenGenerator.accessToken tokenGenerator
                           (toHexString (User._id user)) ;;
                       refreshToken <-
                         TokenGenerator.refreshToken tokenGenerator
                           (toHexString (User._id user))
                           (User.count user) ;;
                       addTokensToCookies
                         (AuthTokens.mk accessToken refreshToken) ;;;
                       ret (Some user)
                     else ret None
                 | None => ret None
                 end)
                (ret None)
          end
      end
  end.

(** [res] and [useCookies] are optional: [res] tells whether the caller
    passed the response. *)
Definition signInHelper (userId : ObjectID) (count : Z)
           (tokenGenerator : TokenGenerator.t)
           (res : bool) (useCookies : option bool) : M AuthPayload.t :=
  tokens <- signInVerifiedUser (toHexString userId) count tokenGenerator ;;
  (if Boolean useCookies && res
   then addTokensToCookies tokens
   else ret tt) ;;;
  ret (AuthPayload.mk (AuthTokens.refreshToken tokens)
                      (AuthTokens.accessToken tokens) count).

Definition getValidatedUser (email password : string)
           (users : UserModel.t) : M User.t :=
  user <- UserModel.findUserByEmail users email ;;
  match user with
  | None => throw (Error "Invalid email provided")
  | Some user =>
      let validPassword := compare password (User.passwordHash user) in
      if negb validPassword
      then throw (Error "Invalid credential combination")
      else ret user
  end.
End Utils.

(* ===================================================================== *)
(** ** typeDefs.ts: the resolvers *)

(** [interface AuthContext].  [res] is the response of the world and [req]
    is read by no resolver; [user] is what [getActiveUser] returned when the
    context of the request was built. *)
Module AuthContext.
Record t {bson : Bson} : Type := mk {
  models : UserModel.t;
  user : option User.t;
  tokenGenerator : TokenGenerator.t
}.
End AuthContext.

Section Resolvers.
Context {bson : Bson} {jwt : JsonWebToken} {cookie_pkg : Cookie}
        {bcrypt : Bcrypt}.

Definition signUpMutation (email password : string) (cookies : option bool)
           (ctx : AuthContext.t) : M AuthPayload.t :=
  (* checks if the user already exists *)
  isUser <- UserModel.isUser (AuthContext.models ctx) email ;;
  if isUser : bool
  then throw (Error ("User with " ++ email ++ " already exists"))
  else
    (* creates brand new user *)
    u <- UserModel.createNewUser (AuthContext.models ctx) email password ;;
    (* generates tokens to sign in the new user *)
    signInHelper (User._id u) (User.count u)
                 (AuthContext.tokenGenerator ctx)
                 true (Some (Boolean cookies)).

Definition signInMutation (email password : string) (cookies : option bool)
           (ctx : AuthContext.t) : M AuthPayload.t :=
  (* validates the user info is correct *)
  u <- getValidatedUser email password (AuthContext.models ctx) ;;
  (* uses the validated user info to generate JWT tokens *)
  signInHelper (User._id u) (User.count u)
               (AuthContext.tokenGenerator ctx)
               true (Some (Boolean cookies)).

(** [user && user.count == data.count] holds only when the payload has a
    [count]; that number is then what [signInHelper] receives as
    [data.count].  [signInHelper] is called without [res] and
    [useCookies]. *)
Definition refreshTokensMutation (refreshToken : string)
           (ctx : AuthContext.t) : M (option AuthPayload.t) :=
  data <- TokenGenerator.verifyRefreshToken
            (AuthContext.tokenGenerator ctx) refreshToken ;;
  match data with
  | Some data =>
      user <- UserModel.findUserById (AuthContext.models ctx)
                (VerifiedRefreshToken.userId data) ;;
      match user, VerifiedRefreshToken.count data with
      | Some user, Some count =>
          if User.count user =? count
          then
            userId <- new_ObjectID (VerifiedRefreshToken.userId data) ;;
            payload <- signInHelper userId count
                         (AuthContext.tokenGenerator ctx) false None ;;
            ret (Some payload)
          else ret None
      | _, _ => ret None
      end
  | None => ret None
  end.

Definition invalidateTokensMutation (ctx : AuthContext.t) : M bool :=
  match AuthContext.user ctx with
  | Some user =>
      UserModel.updateUser (AuthContext.models ctx)
        (toHexString (User._id user))
        (set_count (User.count user + 1))
  | None => ret false
  end.
End Resolvers.

(* ===================================================================== *)
(** ** Vocabulary of the properties *)

Section Vocabulary.
Context {bson : Bson} {jwt : JsonWebToken} {bcrypt : Bcrypt}.

(** The context the server builds for a request: the model over the
    collection, the user the request resolved to, the generator over the
    two secrets. *)
Definition context (aS rS : string) (user : option User.t) : AuthContext.t :=
  AuthContext.mk generateUserModel user (tokenGeneratorWithSecrets aS rS).

(** The value a header of the response holds. *)
Definition getHeader (name : string) (r : ServerResponse)
  : option (list string) :=
  match find (fun h => (fst h =? name)%string) (headers r) with
  | Some h => Some (snd h)
  | None => None
  end.

(** [pat] occurs somewhere in [s]. *)
Fixpoint occurs (pat s : string) : bool :=
  String.prefix pat s
  || match s with
     | EmptyString => false
     | String _ s' => occurs pat s'
     end.

(** The tokens [signInHelper] signs for a user id and a count. *)
Definition issued_pair (userId : ObjectID) (count : Z) (aS rS : string)
           (clock : Z) : AuthPayload.t :=
  AuthPayload.mk
    (jwt_sign (Payload.mk (Some (toHexString userId)) (Some count)
                          None None) rS "7d" clock)
    (jwt_sign (Payload.mk (Some (toHexString userId)) None None None)
              aS "15min" clock)
    count.

(** What makes a refresh token good for a renewal: it verifies, to payload
    [p]; the user looked up by the id of [p] exists, and is [u]; the counter
    of [u] is the count of [p]. *)
Definition renewable (refreshToken rS : string) (w : World)
           (p : Payload.t) (u : User.t) : Prop :=
  fst (verify (Some refreshToken) rS w) = Return p
  /\ fst (findUserById (Payload.userId p) w) = Return (Some u)
  /\ Payload.count p = Some (User.count u).

(** The embedded id of a token that verifies is one [new ObjectID]
    accepts, as is the id of every token the subsystem signs. *)
Definition well_formed_id (refreshToken rS : string) (w : World) : Prop :=
  forall p s, fst (verify (Some refreshToken) rS w) = Return p ->
              Payload.userId p = Some s -> ObjectID_parse s <> None.
End Vocabulary.

(* ===================================================================== *)
(** ** The rest of models.ts, and more vocabulary *)

(** models.ts, [interface FindUserSelectors]. *)
Module FindUserSelectors.
Record t {bson : Bson} : Type := mk {
  email : option string;
  id : option ObjectID
}.
Arguments mk {bson} _ _.
End FindUserSelectors.

Section MoreVocabulary.
Context {bson : Bson} {jwt : JsonWebToken} {cookie_pkg : Cookie}
        {bcrypt : Bcrypt}.

(** [findUser({ email = '', id })]: by id when one is given, by email
    otherwise, the email defaulting to the empty string. *)
Definition findUser (selectors : FindUserSelectors.t) : M (option User.t) :=
  let email := match FindUserSelectors.email selectors with
               | Some e => e
               | None => ""
               end in
  match FindUserSelectors.id selectors with
  | Some id => findUserById (Some (toHexString id))
  | None => findUserByEmail email
  end.

(** What bcryptjs promises: a password compares equal to its own hash. *)
Definition bcrypt_sound : Prop :=
  forall (password : string) (rounds : Z),
    compare password (hash password rounds) = true.

(** No two documents of the collection have the same [_id]; none have the
    same email. *)
Definition unique_ids (l : list User.t) : Prop :=
  NoDup (map User._id l).

Definition unique_emails (l : list User.t) : Prop :=
  NoDup (map User.email l).

(** What a document is apart from its counter. *)
Definition identity (u : User.t) : ObjectID * string * string :=
  (User._id u, User.email u, User.passwordHash u).

(** What [new ObjectID] throws on a string it does not accept. *)
Definition invalid_id : exn :=
  Error "Argument passed in must be a single String of 12 bytes or a string of 24 hex characters".

(** What jsonwebtoken's [sign] throws on an empty secret. *)
Definition no_secret : exn := Error "secretOrPrivateKey must have a value".

(** Both secrets are there: the generator can sign. *)
Definition usable (aS rS : string) : bool :=
  negb (aS =? "")%string && negb (rS =? "")%string.

(** Both verifiers answer [null]. *)
Definition refused (token secret : string) (w : World) : Prop :=
  verifyAccessToken token secret w = (Return None, w)
  /\ verifyRefreshToken token secret w = (Return None, w).

(** Both verifiers answer the claims of [data]. *)
Definition accepted (token secret : string) (w : World) (data : Payload.t)
  : Prop :=
  verifyAccessToken token secret w
  = (Return (Some (Payload.userId data)), w)
  /\ verifyRefreshToken token secret w
     = (Return (Some (VerifiedRefreshToken.mk (Payload.userId data)
                                              (Payload.count data))), w).

(** A count within JavaScript's safe integers, where adding 1 is exact. *)
Definition safe_integer (n : Z) : Prop := - 2 ^ 53 < n < 2 ^ 53.

(** A request with the standard header [Authorization: Bearer <token>]
    and any cookies. *)
Definition bearer (cookies : option string) (token : string)
  : IncomingMessage :=
  {| cookie := cookies; authorization := Some ("Bearer " ++ token) |}.
End MoreVocabulary.

(* ===================================================================== *)
(** ** A small implementation of the four packages

    Used to run the embedding on concrete requests.  It is no cryptography:
    a token is a header [J], its payload and its secret in clear, three
    segments between two dots, each field written without a dot and closed
    by a [,].  It shows that what is assumed of the packages can be met, and
    it meets it. *)

Module Sample.

(** *** Strings with an end mark and no dot

    A [:] comes before every character but the dot, which is written [!];
    a [,] ends the string. *)

Fixpoint frame (s rest : string) : string :=
  match s with
  | EmptyString => String "," rest
  | String c s' =>
      if Ascii.eqb c "."
      then String "!" (frame s' rest)
      else String ":" (String c (frame s' rest))
  end.

Fixpoint unframe (s : string) : option (string * string) :=
  match s with
  | EmptyString => None
  | String m s1 =>
      if Ascii.eqb m "," then Some (EmptyString, s1)
      else if Ascii.eqb m "!" then
        match unframe s1 with
        | Some (f, rest) => Some (String "." f, rest)
        | None => None
        end
      else if Ascii.eqb m ":" then
        match s1 with
        | EmptyString => None
        | String c s2 =>
            if Ascii.eqb c "." then None
            else match unframe s2 with
                 | Some (f, rest) => Some (String c f, rest)
                 | None => None
                 end
        end
      else None
  end.

(** *** Numbers, in binary, least significant bit first *)

Fixpoint bits (p : positive) : string :=
  match p with
  | xH => EmptyString
  | xO q => String "0" (bits q)
  | xI q => String "1" (bits q)
  end.

Fixpoint of_bits (s : string) : positive :=
  match s with
  | EmptyString => xH
  | String c s' => if Ascii.eqb c "0" then xO (of_bits s') else xI (of_bits s')
  end.

Definition showZ (z : Z) : string :=
  match z with
  | Z0 => "z"
  | Zpos p => String "p" (bits p)
  | Zneg p => String "n" (bits p)
  end.

Definition readZ (s : string) : option Z :=
  match s with
  | String "z" EmptyString => Some Z0
  | String "p" s' => Some (Zpos (of_bits s'))
  | String "n" s' => Some (Zneg (of_bits s'))
  | _ => None
  end.

Definition show_opt {A} (show : A -> string) (v : option A) : string :=
  match v with
  | Some a => String "S" (show a)
  | None => "N"
  end.

Definition read_opt {A} (read : string -> option A) (s : string)
  : option (option A) :=
  match s with
  | String "S" s' => match read s' with
                     | Some a => Some (Some a)
                     | None => None
                     end
  | String "N" EmptyString => Some None
  | _ => None
  end.

(** *** jsonwebtoken *)

Definition expiry (expiresIn : string) (clock : Z) : option Z :=
  match timespan expiresIn with
  | Some ttl => Some (clock + ttl)
  | None => None
  end.

Definition sample_sign (data : Payload.t) (secret expiresIn : string)
           (clock : Z) : string :=
  String "J" (String "."
    (frame (show_opt (fun s => s) (Payload.userId data))
       (frame (show_opt showZ (Payload.count data))
          (frame (show_opt showZ (Some clock))
             (frame (show_opt showZ (expiry expiresIn clock))
                (String "." (frame secret ""))))))).

(** The fields of the payload segment and what follows it. *)
Definition decode_payload (body : string) : option (Payload.t * string) :=
  match unframe body with
  | Some (f1, r1) =>
  match unframe r1 with
  | Some (f2, r2) =>
  match unframe r2 with
  | Some (f3, r3) =>
  match unframe r3 with
  | Some (f4, r4) =>
      match read_opt Some f1, read_opt readZ f2,
            read_opt readZ f3, read_opt readZ f4 with
      | Some userId, Some count, Some iat, Some exp =>
          Some (Payload.mk userId count iat exp, r4)
      | _, _, _, _ => None
      end
  | None => None
  end
  | None => None
  end
  | None => None
  end
  | None => None
  end.

Definition decode (token : string) : option (string * Payload.t) :=
  match token with
  | String h (String d body) =>
      if Ascii.eqb h "J" && Ascii.eqb d "."
      then match decode_payload body with
           | Some (payload, String d' signature) =>
               if Ascii.eqb d' "."
               then match unframe signature with
                    | Some (secret, rest) =>
                        if (rest =? "")%string
                        then Some (secret, payload)
                        else None
                    | None => None
                    end
               else None
           | _ => None
           end
      else None
  | _ => None
  end.

Definition sample_verify (token secret : string) (clock : Z)
  : outcome Payload.t :=
  match decode token with
  | Some (signed_with, payload) =>
      if (signed_with =? secret)%string
      then match Payload.exp payload with
           | Some e => if clock <? e then Return payload
                       else Throw TokenExpiredError
           | None => Return payload
           end
      else Throw (JsonWebTokenError "invalid signature")
  | None => Throw (JsonWebTokenError "jwt malformed")
  end.

Definition jwt : JsonWebToken :=
  {| jwt_sign := sample_sign; jwt_verify := sample_verify |}.

(** *** ObjectID: a number, written as that many [a]s *)

Fixpoint unary (n : nat) : string :=
  match n with
  | O => EmptyString
  | S m => String "a" (unary m)
  end.

Fixpoint of_unary (s : string) : option nat :=
  match s with
  | EmptyString => Some O
  | String c s' =>
      if Ascii.eqb c "a"
      then match of_unary s' with
           | Some n => Some (S n)
           | None => None
           end
      else None
  end.

Definition bson : Bson :=
  {| ObjectID := nat;
     ObjectID_eq_dec := Nat.eq_dec;
     ObjectID_parse := of_unary;
     toHexString := unary |}.

(** *** cookie: [name=value; name=value] *)

Fixpoint cut (sep : ascii) (s : string) : string * option string :=
  match s with
  | EmptyString => (EmptyString, None)
  | String c s' =>
      if Ascii.eqb c sep then (EmptyString, Some s')
      else let (a, b) := cut sep s' in (String c a, b)
  end.

Fixpoint pieces (sep : ascii) (s : string) : list string :=
  match s with
  | EmptyString => [EmptyString]
  | String c s' =>
      if Ascii.eqb c sep then EmptyString :: pieces sep s'
      else match pieces sep s' with
           | p :: ps => String c p :: ps
           | [] => [String c EmptyString]
           end
  end.

Fixpoint ltrim (s : string) : string :=
  match s with
  | String " " s' => ltrim s'
  | _ => s
  end.

Fixpoint lookup (name : string) (ps : list string) : option string :=
  match ps with
  | [] => None
  | p :: ps' =>
      match cut "=" (ltrim p) with
      | (k, Some v) => if (k =? name)%string then Some v
                       else lookup name ps'
      | (_, None) => lookup name ps'
      end
  end.

Definition sample_parse (header name : string) : option string :=
  lookup name (pieces ";" header).

Definition sample_serialize (name value : string) (maxAge : Z) : string :=
  name ++ "=" ++ value ++ "; Max-Age=" ++ showZ maxAge.

Definition cookie_pkg : Cookie :=
  {| parse := sample_parse; serialize := sample_serialize |}.

(** *** bcryptjs *)

Definition sample_hash (password : string) (rounds : Z) : string :=
  "$2a$" ++ password.

Definition sample_compare (password hashed : string) : bool :=
  (hashed =? "$2a$" ++ password)%string.

Definition bcrypt : Bcrypt :=
  {| hash := sample_hash; compare := sample_compare |}.

End Sample.

(* ===================================================================== *)
(** ** A scenario: one user, a few requests *)

Section Scenario.
#[local] Existing Instance Sample.bson.
#[local] Existing Instance Sample.jwt.
#[local] Existing Instance Sample.cookie_pkg.
#[local] Existing Instance Sample.bcrypt.

Definition accessSecret : string := "ka".
Definition refreshSecret : string := "kr".

(** The user with id 3, email [a@x.com], password [pw], never revoked. *)
Definition alice : User.t := User.mk 3%nat "a@x.com" (hash "pw" 10) 0.

Definition world0 : World :=
  {| users := [alice];
     response := {| headers := [] |};
     now := 0;
     fresh := 4%nat |}.

(** The tokens [alice] was given when the clock read 0. *)
Definition alice_access : string :=
  Eval vm_compute in
    jwt_sign (Payload.mk (Some (toHexString (User._id alice))) None
                         None None)
             accessSecret "15min" 0.

Definition alice_refresh : string :=
  Eval vm_compute in
    jwt_sign (Payload.mk (Some (toHexString (User._id alice)))
                         (Some (User.count alice)) None None)
             refreshSecret "7d" 0.

(** The world 100 seconds later. *)
Definition world1 : World :=
  {| users := [alice];
     response := {| headers := [] |};
     now := 100;
     fresh := 4%nat |}.

(** A request with the access token in the authorization header. *)
Definition bearer_request : IncomingMessage :=
  {| cookie := None; authorization := Some ("Bearer " ++ alice_access) |}.

(** A request with the bare access token as authorization header. *)
Definition bare_request : IncomingMessage :=
  {| cookie := None; authorization := Some alice_access |}.

(** A request with only the refresh cookie. *)
Definition refresh_request : IncomingMessage :=
  {| cookie := Some ("refresh-token=" ++ alice_refresh);
     authorization := None |}.

(** A header that does not begin with [Bearer ] but holds it after the
    first character of the access token. *)
Definition inner_bearer (token : string) : string :=
  match token with
  | EmptyString => EmptyString
  | String c rest => String c ("Bearer " ++ rest)
  end.

Definition inner_request : IncomingMessage :=
  {| cookie := None; authorization := Some (inner_bearer alice_access) |}.

(** The context of a request that resolved [alice]. *)
Definition alice_context : AuthContext.t :=
  context accessSecret refreshSecret (Some alice).

Definition anonymous_context : AuthContext.t :=
  context accessSecret refreshSecret None.
End Scenario.

(* ===================================================================== *)
(** ** The scenario, continued *)

Section MoreScenario.
#[local] Existing Instance Sample.bson.
#[local] Existing Instance Sample.jwt.
#[local] Existing Instance Sample.cookie_pkg.
#[local] Existing Instance Sample.bcrypt.

(** A request with only the access cookie. *)
Definition access_request : IncomingMessage :=
  {| cookie := Some ("access-token=" ++ alice_access);
     authorization := None |}.

(** What [alice]'s tokens verify to. *)
Definition alice_access_payload : Payload.t :=
  Payload.mk (Some "aaa") None (Some 0) (Some 900).

Definition alice_refresh_payload : Payload.t :=
  Payload.mk (Some "aaa") (Some 0) (Some 0) (Some 604800).

(** The document a sign-up with [b@x.com] and [pw2] creates. *)
Definition bob : User.t := User.mk 4%nat "b@x.com" (hash "pw2" 10) 0.

(** An access token and a refresh token, signed with the secrets, whose
    embedded id is no ObjectID. *)
Definition odd_access : string :=
  Eval vm_compute in
    jwt_sign (Payload.mk (Some "zz") None None None) accessSecret "15min" 0.

Definition odd_refresh : string :=
  Eval vm_compute in
    jwt_sign (Payload.mk (Some "zz") (Some 0) None None)
             refreshSecret "7d" 0.

(** The world 8 days after the tokens were signed. *)
Definition world_late : World :=
  {| users := [alice];
     response := {| headers := [] |};
     now := 691200;
     fresh := 4%nat |}.

(** [alice] after a revocation. *)
Definition alice_revoked : User.t :=
  apply_update (set_count (User.count alice + 1)) alice.
End MoreScenario.

(* ===================================================================== *)
(** ** Properties *)

Section Properties.
Context {bson : Bson} {jwt : JsonWebToken} {cookie_pkg : Cookie}
        {bcrypt : Bcrypt}.

(** *** Signing *)

Lemma sign_run data secret expiresIn w :
  secret <> ""%string ->
  sign data secret expiresIn w
  = (Return (jwt_sign data secret expiresIn (now w)), w).
Proof.
  intros H. unfold sign. apply String.eqb_neq in H. rewrite H. reflexivity.
Qed.

Lemma sign_empty data expiresIn w :
  sign data "" expiresIn w = (Throw no_secret, w).
Proof.
  reflexivity.
Qed.

Lemma usable_inv aS rS :
  usable aS rS = true -> aS <> ""%string /\ rS <> ""%string.
Proof.
  unfold usable. intros H. apply andb_prop in H. destruct H as [Ha Hr].
  split; apply String.eqb_neq; [destruct (aS =? "")%string
                               | destruct (rS =? "")%string];
    (reflexivity || discriminate).
Qed.

Lemma usable_intro aS rS :
  aS <> ""%string -> rS <> ""%string -> usable aS rS = true.
Proof.
  intros Ha Hr. unfold usable.
  apply String.eqb_neq in Ha. apply String.eqb_neq in Hr.
  rewrite Ha, Hr. reflexivity.
Qed.

Lemma unusable_inv aS rS :
  usable aS rS = false -> aS = ""%string \/ rS = ""%string.
Proof.
  unfold usable.
  destruct (String.eqb_spec aS ""); [left; assumption|].
  destruct (String.eqb_spec rS ""); [right; assumption|].
  discriminate.
Qed.

(** *** What leaves the world alone *)

Lemma verify_world token secret w : snd (verify token secret w) = w.
Proof.
  unfold verify. destruct (truthy token); reflexivity.
Qed.

Lemma verify_run token secret w :
  verify token secret w = (fst (verify token secret w), w).
Proof.
  rewrite <- (verify_world token secret w) at 3.
  apply surjective_pairing.
Qed.

Lemma findUserById_world id w : snd (findUserById id w) = w.
Proof.
  unfold findUserById, bind, new_ObjectID, findOne, ret, throw.
  destruct id as [s|]; [destruct (ObjectID_parse s)|]; reflexivity.
Qed.

Lemma findUserById_run id w :
  findUserById id w = (fst (findUserById id w), w).
Proof.
  rewrite <- (findUserById_world id w) at 3.
  apply surjective_pairing.
Qed.

Lemma find_by_id o l u :
  find (matches (by_id o)) l = Some u -> User._id u = o.
Proof.
  intros H. apply find_some in H. destruct H as [_ H].
  simpl in H. destruct (ObjectID_eq_dec (User._id u) o); congruence.
Qed.

(** *** Token verification *)

Lemma truthy_inv_some (s t : string) :
  truthy (Some s) = Some t -> t = s /\ s <> ""%string.
Proof.
  unfold truthy. destruct (String.eqb_spec s ""); [discriminate|].
  intros [= <-]. split; [reflexivity | assumption].
Qed.

Lemma verifyAccessToken_run token secret w :
  verifyAccessToken token secret w
  = (Return (match fst (verify (Some token) secret w) with
             | Return p => Some (Payload.userId p)
             | Throw _ => None
             end), w).
Proof.
  unfold verifyAccessToken, try_catch, bind, ret.
  rewrite (verify_run (Some token) secret w).
  destruct (fst (verify (Some token) secret w)); reflexivity.
Qed.

Lemma verifyRefreshToken_run token secret w :
  verifyRefreshToken token secret w
  = (Return (match fst (verify (Some token) secret w) with
             | Return p => Some (VerifiedRefreshToken.mk
                                   (Payload.userId p) (Payload.count p))
             | Throw _ => None
             end), w).
Proof.
  unfold verifyRefreshToken, try_catch, bind, ret.
  rewrite (verify_run (Some token) secret w).
  destruct (fst (verify (Some token) secret w)); reflexivity.
Qed.

(** C8.  Verification of an access or of a refresh token, whatever the
    string and the secret, never throws and leaves the world as it was: the
    result is made of the fields of the payload when jsonwebtoken's [verify]
    returns one, and it is the same [null] whatever [verify] throws.  With
    a jsonwebtoken that keeps its promises: a token it signed with the
    secret has its claims returned until its time is over, and is answered
    [null] from then on; a token signed with another secret is answered
    [null]; and so is a string that is not three segments between two
    dots, the empty string among them. *)
Theorem verification_total
        (rt : jwt_round_trip) (ex : jwt_expires) (ws : jwt_wrong_secret)
        (mf : jwt_malformed) (token secret : string) (w : World) :
  (verifyAccessToken token secret w
   = (Return (match fst (verify (Some token) secret w) with
              | Return p => Some (Payload.userId p)
              | Throw _ => None
              end), w)
   /\ verifyRefreshToken token secret w
      = (Return (match fst (verify (Some token) secret w) with
                 | Return p => Some (VerifiedRefreshToken.mk
                                       (Payload.userId p) (Payload.count p))
                 | Throw _ => None
                 end), w))
  /\ (forall data expiresIn ttl issued,
        secret <> ""%string ->
        timespan expiresIn = Some ttl ->
        token = jwt_sign data secret expiresIn issued ->
        (issued <= now w < issued + ttl -> accepted token secret w data)
        /\ (issued + ttl <= now w -> refused token secret w))
  /\ (forall data signed_with expiresIn issued,
        signed_with <> ""%string ->
        secret <> ""%string ->
        signed_with <> secret ->
        token = jwt_sign data signed_with expiresIn issued ->
        refused token secret w)
  /\ (dots token <> 2%nat -> refused token secret w).
Proof.
  unfold accepted, refused.
  rewrite (verifyAccessToken_run token secret w),
          (verifyRefreshToken_run token secret w).
  split; [split; reflexivity|]. split; [|split].
  - intros data expiresIn ttl issued Hs Ht ->. split.
    + intros Hw.
      destruct (rt data secret expiresIn ttl issued (now w) Hs Ht Hw)
        as [Hne Hv].
      unfold verify, truthy. apply String.eqb_neq in Hne. rewrite Hne.
      cbn [fst]. rewrite Hv. split; reflexivity.
    + intros Hover.
      pose proof (ex data secret expiresIn ttl issued (now w) Hs Ht Hover)
        as Hv.
      unfold verify.
      destruct (truthy (Some (jwt_sign data secret expiresIn issued)))
        as [t|] eqn:Ht'; [|split; reflexivity].
      destruct (truthy_inv_some _ Ht') as [-> _].
      cbn [fst]. rewrite Hv. split; reflexivity.
  - intros data signed_with expiresIn issued Hsw Hs Hne ->.
    pose proof (ws data signed_with secret expiresIn issued (now w)
                   Hsw Hs Hne) as Hv.
    unfold verify.
    destruct (truthy (Some (jwt_sign data signed_with expiresIn issued)))
      as [t|] eqn:Ht'; [|split; reflexivity].
    destruct (truthy_inv_some _ Ht') as [-> _].
    cbn [fst]. rewrite Hv. split; reflexivity.
  - intros Hdots.
    unfold verify.
    destruct (truthy (Some token)) as [t|] eqn:Ht'; [|split; reflexivity].
    destruct (truthy_inv_some _ Ht') as [-> Hne].
    cbn [fst]. rewrite (mf token secret (now w) Hne Hdots).
    split; reflexivity.
Qed.

(** C6.  With a jsonwebtoken that keeps its promise on the tokens it
    signed, an access token made by [accessTokenGenerator] for a user id
    verifies to that user id, under the same secret, at any time before
    the 15 minutes are over. *)
Theorem access_token_round_trip
        (law : jwt_round_trip) (userId secret : string)
        (issue check : World) (token : string) :
  secret <> ""%string ->
  now issue <= now check < now issue + 900 ->
  fst (accessTokenGenerator userId secret issue) = Return token ->
  verifyAccessToken token secret check = (Return (Some (Some userId)), check).
Proof.
  intros Hsecret Htime Htoken.
  unfold accessTokenGenerator, tokenGenerator in Htoken.
  rewrite (sign_run _ _ _ Hsecret) in Htoken.
  simpl in Htoken. injection Htoken as <-.
  destruct (law (Payload.mk (Some userId) None None None) secret
                "15min"%string 900 (now issue) (now check)
                Hsecret eq_refl Htime) as [Hne Hv].
  unfold verifyAccessToken, try_catch, bind, ret, verify, truthy.
  apply String.eqb_neq in Hne. rewrite Hne, Hv. reflexivity.
Qed.

(** *** Cookies *)

(** C7.  What [addTokensToCookies] writes: the refresh-token cookie with
    max-age 604800 and the access-token cookie with max-age 54000 (fifteen
    hours), which is not the 900 seconds an access token lives. *)
Theorem cookies_max_age (tokens : AuthTokens.t) (w : World) :
  getHeader "Set-Cookie" (response (snd (addTokensToCookies tokens w)))
  = Some [ serialize "refresh-token" (AuthTokens.refreshToken tokens) 604800;
           serialize "access-token" (AuthTokens.accessToken tokens) 54000 ]
  /\ 54000 <> 900.
Proof.
  split; [reflexivity | lia].
Qed.

(** *** The session resolver *)

Lemma truthy_present s : s <> ""%string -> truthy (Some s) = Some s.
Proof.
  intros H. unfold truthy. apply String.eqb_neq in H. rewrite H.
  reflexivity.
Qed.

Lemma verify_returns token secret w p :
  fst (verify token secret w) = Return p ->
  exists t, truthy token = Some t.
Proof.
  unfold verify. destruct (truthy token) as [t|]; [eauto | discriminate].
Qed.

(** The bearer branch of [getActiveUser], computed. *)
Lemma getActiveUser_bearer req aS rS w header :
  authorization req = Some header ->
  header <> ""%string ->
  getActiveUser req aS rS generateUserModel w
  = (match fst (verify (Some (replace "Bearer " "" header)) aS w) with
     | Return p => fst (findUserById (Payload.userId p) w)
     | Throw _ => Return None
     end, w).
Proof.
  intros Hauth Hne. unfold getActiveUser.
  rewrite Hauth, (truthy_present Hne).
  unfold bind, attempt.
  rewrite (verify_run (Some (replace "Bearer " "" header)) aS w).
  destruct (fst (verify (Some (replace "Bearer " "" header)) aS w)).
  - simpl. apply findUserById_run.
  - reflexivity.
Qed.

(** C4.  A request that carries an authorization header (one the code
    sees: [if (bearerToken)], which an empty value fails) is decided on the
    header alone: the header, less its [Bearer ], is verified as an access
    token; on success the result is that of looking up the embedded id, on
    failure it is [null]; the world, and so the cookies of the response,
    is as it was; and the cookies of the request play no part. *)
Theorem bearer_decides
        (req : IncomingMessage) (aS rS : string) (w : World)
        (header : string) :
  authorization req = Some header ->
  header <> ""%string ->
  getActiveUser req aS rS generateUserModel w
  = (match fst (verify (Some (replace "Bearer " "" header)) aS w) with
     | Return p => fst (findUserById (Payload.userId p) w)
     | Throw _ => Return None
     end, w)
  /\ forall cookies : option string,
       getActiveUser {| cookie := cookies;
                        authorization := authorization req |}
                     aS rS generateUserModel w
       = getActiveUser req aS rS generateUserModel w.
Proof.
  intros Hauth Hne. split.
  - apply getActiveUser_bearer; assumption.
  - intros cookies.
    rewrite (getActiveUser_bearer req aS rS w Hauth Hne).
    apply getActiveUser_bearer; [exact Hauth | exact Hne].
Qed.

(** The renewal step of [getActiveUser], computed: what [sign] throws on
    an empty secret is caught with the rest. *)
Lemma getActiveUser_refresh req aS rS w p e :
  truthy (authorization req) = None ->
  fst (verify (parse (or_empty (cookie req)) "access-token") aS w)
  = Throw e ->
  fst (verify (parse (or_empty (cookie req)) "refresh-token") rS w)
  = Return p ->
  getActiveUser req aS rS generateUserModel w
  = match fst (findUserById (Payload.userId p) w) with
    | Return (Some u) =>
        if count_eq (Payload.count p) (User.count u) && usable aS rS
        then
          let hex := toHexString (User._id u) in
          let accessToken :=
            jwt_sign (Payload.mk (Some hex) None None None)
                     aS "15min" (now w) in
          let refreshToken :=
            jwt_sign (Payload.mk (Some hex) (Some (User.count u)) None None)
                     rS "7d" (now w) in
          (Return (Some u),
           snd (addTokensToCookies
                  (AuthTokens.mk accessToken refreshToken) w))
        else (Return None, w)
    | _ => (Return None, w)
    end.
Proof.
  intros Hauth Haccess Hrefresh.
  destruct (verify_returns _ _ _ Hrefresh) as [rt Hrt].
  unfold getActiveUser. rewrite Hauth, Hrt.
  destruct (truthy (parse (or_empty (cookie req)) "access-token"));
    unfold bind at 1; unfold attempt;
    rewrite (verify_run _ aS w), Haccess;
    unfold try_catch, bind at 1;
    rewrite (verify_run _ rS w), Hrefresh;
    unfold bind at 1;
    change (UserModel.findUserById generateUserModel) with findUserById;
    destruct (findUserById (Payload.userId p) w) as [r w'] eqn:Hrun;
    pose proof (findUserById_world (Payload.userId p) w) as Hw;
    rewrite Hrun in Hw; simpl in Hw; subst w'; simpl fst;
    (destruct r as [[u|]|];
     [ destruct (count_eq (Payload.count p) (User.count u));
       [ cbn [andb TokenGenerator.accessToken TokenGenerator.refreshToken
              tokenGeneratorWithSecrets];
         unfold usable, accessTokenGenerator, refreshTokenGenerator,
                tokenGenerator, sign, bind;
         destruct (aS =? "")%string; destruct (rS =? "")%string
       | ]
     | | ]; reflexivity).
Qed.

(** [getActiveUser] when neither cookie verifies. *)
Lemma getActiveUser_no_cookie req aS rS w e e' :
  truthy (authorization req) = None ->
  fst (verify (parse (or_empty (cookie req)) "access-token") aS w)
  = Throw e ->
  fst (verify (parse (or_empty (cookie req)) "refresh-token") rS w)
  = Throw e' ->
  getActiveUser req aS rS generateUserModel w = (Return None, w).
Proof.
  intros Hauth Haccess Hrefresh.
  unfold getActiveUser. rewrite Hauth.
  destruct (truthy (parse (or_empty (cookie req)) "access-token"));
    destruct (truthy (parse (or_empty (cookie req)) "refresh-token"));
    try reflexivity;
    unfold bind at 1; unfold attempt;
    rewrite (verify_run _ aS w), Haccess;
    unfold try_catch, bind at 1;
    rewrite (verify_run _ rS w), Hrefresh; reflexivity.
Qed.

(** C1.  Both secrets being there, no authorization header and an access
    cookie that is absent or does not verify.  When the refresh cookie
    verifies, to payload [p]: if the user looked up by the id of [p] exists
    and its counter is the count of [p], a new access token (the user's id,
    the access secret, 15 minutes from now) and a new refresh token (the
    user's id and the count of [p], the refresh secret, 7 days from now)
    are signed, both are written as the cookies of the response, nothing
    else of the world changes, and the user is returned; on every other
    outcome of the look-up the result is [null] and the world is untouched.
    When the refresh cookie does not verify either, the result is [null]
    as well. *)
Theorem renewal
        (req : IncomingMessage) (aS rS : string) (w : World) (e : exn) :
  aS <> ""%string ->
  rS <> ""%string ->
  truthy (authorization req) = None ->
  fst (verify (parse (or_empty (cookie req)) "access-token") aS w)
  = Throw e ->
  (forall p : Payload.t,
      fst (verify (parse (or_empty (cookie req)) "refresh-token") rS w)
      = Return p ->
      (forall u : User.t,
          fst (findUserById (Payload.userId p) w) = Return (Some u) ->
          Payload.count p = Some (User.count u) ->
          let accessToken :=
            jwt_sign (Payload.mk (Some (toHexString (User._id u)))
                                 None None None)
                     aS "15min" (now w) in
          let refreshToken :=
            jwt_sign (Payload.mk (Some (toHexString (User._id u)))
                                 (Payload.count p) None None)
                     rS "7d" (now w) in
          exists w' : World,
            getActiveUser req aS rS generateUserModel w
            = (Return (Some u), w')
            /\ users w' = users w
            /\ now w' = now w
            /\ fresh w' = fresh w
            /\ getHeader "Set-Cookie" (response w')
               = Some [ serialize "refresh-token" refreshToken 604800;
                        serialize "access-token" accessToken 54000 ])
      /\ ((forall u : User.t,
              fst (findUserById (Payload.userId p) w) = Return (Some u) ->
              Payload.count p <> Some (User.count u)) ->
          getActiveUser req aS rS generateUserModel w = (Return None, w)))
  /\ (forall e' : exn,
         fst (verify (parse (or_empty (cookie req)) "refresh-token") rS w)
         = Throw e' ->
         getActiveUser req aS rS generateUserModel w = (Return None, w)).
Proof.
  intros Ha Hr Hauth Haccess. split.
  - intros p Hrefresh.
    rewrite (getActiveUser_refresh req aS rS w Hauth Haccess Hrefresh).
    rewrite (usable_intro Ha Hr).
    split.
    + intros u -> Hcount. cbn zeta.
      unfold count_eq. rewrite Hcount, Z.eqb_refl. cbn [andb].
      eexists. repeat split.
    + intros Hother.
      destruct (fst (findUserById (Payload.userId p) w)) as [[u|]|];
        try reflexivity.
      specialize (Hother u eq_refl).
      unfold count_eq. destruct (Payload.count p) as [c|]; [|reflexivity].
      destruct (Z.eqb_spec c (User.count u)); [congruence | reflexivity].
  - intros e' Hrefresh.
    exact (getActiveUser_no_cookie req aS rS w Hauth Haccess Hrefresh).
Qed.

Lemma replace_absent pat rep s :
  occurs pat s = false -> replace pat rep s = s.
Proof.
  induction s as [|c s IH]; intros H; cbn [occurs] in H;
    apply orb_false_elim in H; destruct H as [Hp Hs].
  - cbn [replace]. rewrite Hp. reflexivity.
  - cbn [replace]. rewrite Hp. f_equal. apply IH. exact Hs.
Qed.

(** C10, amended.  The token that is verified is the non-empty header
    with the first occurrence of [Bearer ] removed, wherever it stands;
    when [Bearer ] occurs nowhere in the header, it is the header itself,
    so that a valid access token sent bare authenticates its user. *)
Theorem bearer_scheme_optional
        (req : IncomingMessage) (aS rS : string) (w : World)
        (header : string) :
  authorization req = Some header ->
  header <> ""%string ->
  getActiveUser req aS rS generateUserModel w
  = (match fst (verify (Some (replace "Bearer " "" header)) aS w) with
     | Return p => fst (findUserById (Payload.userId p) w)
     | Throw _ => Return None
     end, w)
  /\ (occurs "Bearer " header = false ->
      getActiveUser req aS rS generateUserModel w
      = (match fst (verify (Some header) aS w) with
         | Return p => fst (findUserById (Payload.userId p) w)
         | Throw _ => Return None
         end, w)).
Proof.
  intros Hauth Hne. split.
  - apply getActiveUser_bearer; assumption.
  - intros Habsent.
    rewrite (getActiveUser_bearer req aS rS w Hauth Hne).
    rewrite (replace_absent "Bearer " "" header Habsent). reflexivity.
Qed.

(** *** Credentials *)

(** C2, amended.  [getValidatedUser] fails in both cases by throwing an
    [Error] and leaves the world alone, but with two messages: one for an
    email that no user has, another for a password that does not match. *)
Theorem credential_failures (email password : string) (w : World) :
  getValidatedUser email password generateUserModel w
  = (match find (matches (by_email email)) (users w) with
     | None => Throw (Error "Invalid email provided")
     | Some u =>
         if compare password (User.passwordHash u)
         then Return u
         else Throw (Error "Invalid credential combination")
     end, w)
  /\ Error "Invalid email provided"
     <> Error "Invalid credential combination".
Proof.
  split; [|discriminate].
  unfold getValidatedUser, bind. simpl.
  destruct (find (matches (by_email email)) (users w)) as [u|];
    [|reflexivity].
  destruct (compare password (User.passwordHash u)); reflexivity.
Qed.

(** *** Revocation *)

Lemma matches_apply_update q d u :
  matches q (apply_update d u) = matches q u.
Proof.
  destruct q, d; reflexivity.
Qed.

Lemma update_first_found q d l x :
  find (matches q) l = Some x ->
  find (matches q) (fst (update_first q d l)) = Some (apply_update d x)
  /\ snd (update_first q d l)
     = (if User.count (apply_update d x) =? User.count x then 0 else 1).
Proof.
  induction l as [|u l IH]; simpl; [discriminate|].
  destruct (matches q u) eqn:Hm.
  - intros [= ->]. simpl. rewrite matches_apply_update, Hm.
    split; reflexivity.
  - intros Hx. specialize (IH Hx).
    destruct (update_first q d l) as [l' n]. simpl in *.
    rewrite Hm. exact IH.
Qed.

(** C3, amended.  For a resolved count within the safe integers, where the
    code's [user.count + 1] is the integer sum: [invalidateTokens] writes
    into the store the count of the user that the request resolved when it
    began, plus one, whatever the store holds by then; it answers [true]
    when that changed the stored count.  The stored count goes up by
    exactly one when it still is the count the request resolved. *)
Theorem revocation_overwrites
        (law : hex_round_trip) (ctx : AuthContext.t)
        (u stored : User.t) (w : World) :
  AuthContext.models ctx = generateUserModel ->
  AuthContext.user ctx = Some u ->
  safe_integer (User.count u) ->
  find (matches (by_id (User._id u))) (users w) = Some stored ->
  exists w' : World,
    invalidateTokensMutation ctx w
    = (Return (negb (User.count u + 1 =? User.count stored)), w')
    /\ find (matches (by_id (User._id u))) (users w')
       = Some (apply_update (set_count (User.count u + 1)) stored)
    /\ response w' = response w
    /\ (User.count stored = User.count u ->
        invalidateTokensMutation ctx w = (Return true, w')
        /\ User.count (apply_update (set_count (User.count u + 1)) stored)
           = User.count stored + 1).
Proof.
  intros Hmodels Huser _ Hstored.
  unfold invalidateTokensMutation. rewrite Huser, Hmodels.
  cbn [UserModel.updateUser generateUserModel].
  unfold updateUser, bind, new_ObjectID. rewrite (law (User._id u)).
  unfold ret, updateOne.
  destruct (update_first_found (by_id (User._id u))
              (set_count (User.count u + 1)) (users w) Hstored)
    as [Hfind Hcount].
  destruct (update_first (by_id (User._id u))
              (set_count (User.count u + 1)) (users w)) as [us n].
  simpl in Hfind, Hcount. subst n.
  exists (with_users w us). simpl apply_update in *. simpl User.count.
  assert (Hres : forall b : bool, ((if b then 0 else 1) =? 1) = negb b)
    by (intros []; reflexivity).
  rewrite Hres. split; [reflexivity|].
  split; [exact Hfind|]. split; [reflexivity|].
  intros Hsame. split; [|lia].
  rewrite Hsame.
  replace (User.count u + 1 =? User.count u) with false; [reflexivity|].
  symmetry. apply Z.eqb_neq. lia.
Qed.

(** *** Sign-up and the standalone refresh *)

Lemma signInHelper_run userId count aS rS res useCookies w :
  signInHelper userId count (tokenGeneratorWithSecrets aS rS)
               res useCookies w
  = if usable aS rS
    then (Return (issued_pair userId count aS rS (now w)),
          if Boolean useCookies && res
          then snd (addTokensToCookies
                      (AuthTokens.mk
                         (AuthPayload.accessToken
                            (issued_pair userId count aS rS (now w)))
                         (AuthPayload.refreshToken
                            (issued_pair userId count aS rS (now w)))) w)
          else w)
    else (Throw no_secret, w).
Proof.
  unfold signInHelper, signInVerifiedUser, bind.
  cbn [TokenGenerator.accessToken TokenGenerator.refreshToken
       tokenGeneratorWithSecrets].
  unfold usable, accessTokenGenerator, refreshTokenGenerator,
         tokenGenerator, sign.
  destruct (aS =? "")%string; destruct (rS =? "")%string;
    try reflexivity.
  simpl. destruct (Boolean useCookies && res); reflexivity.
Qed.

Lemma findUserById_found id w u :
  fst (findUserById id w) = Return (Some u) ->
  new_ObjectID id w = (Return (User._id u), w).
Proof.
  unfold findUserById, bind, new_ObjectID, findOne, ret, throw.
  destruct id as [s|]; [destruct (ObjectID_parse s)|]; simpl;
    intros [= H]; try (apply find_by_id in H; rewrite H; reflexivity).
Qed.

Lemma findUserById_throws id w e :
  fst (findUserById id w) = Throw e ->
  exists s, id = Some s /\ ObjectID_parse s = None.
Proof.
  unfold findUserById, bind, new_ObjectID, findOne, ret, throw.
  destruct id as [s|]; [destruct (ObjectID_parse s) eqn:Hp|]; simpl;
    intros [= H]. exists s. split; [reflexivity | exact Hp].
Qed.

(** [refreshTokens], computed: the look-up is awaited outside any [try],
    and so is the signing, so what they throw is thrown on. *)
Lemma refreshTokensMutation_run refreshToken aS rS user w :
  refreshTokensMutation refreshToken (context aS rS user) w
  = (match fst (verify (Some refreshToken) rS w) with
     | Return p =>
         match fst (findUserById (Payload.userId p) w) with
         | Return (Some u) =>
             match Payload.count p with
             | Some count =>
                 if User.count u =? count
                 then if usable aS rS
                      then Return (Some (issued_pair (User._id u) count
                                                     aS rS (now w)))
                      else Throw no_secret
                 else Return None
             | None => Return None
             end
         | Return None => Return None
         | Throw e => Throw e
         end
     | Throw _ => Return None
     end, w).
Proof.
  unfold refreshTokensMutation, context.
  cbn [AuthContext.tokenGenerator AuthContext.models
       TokenGenerator.verifyRefreshToken tokenGeneratorWithSecrets
       UserModel.findUserById generateUserModel].
  unfold bind at 1.
  rewrite (verifyRefreshToken_run refreshToken rS w).
  destruct (fst (verify (Some refreshToken) rS w)) as [p|e];
    [|reflexivity].
  cbn [VerifiedRefreshToken.userId VerifiedRefreshToken.count].
  unfold bind at 1.
  pose proof (@findUserById_found (Payload.userId p) w) as Hfound.
  rewrite (findUserById_run (Payload.userId p) w). cbn [fst].
  destruct (fst (findUserById (Payload.userId p) w)) as [[u|]|e];
    try reflexivity.
  destruct (Payload.count p) as [c|]; [|reflexivity].
  destruct (User.count u =? c); [|reflexivity].
  unfold bind. rewrite (Hfound u eq_refl), signInHelper_run.
  destruct (usable aS rS); reflexivity.
Qed.

(** C5, amended.  [refreshTokens] never touches the world, so never the
    cookies of the response.  Both secrets being there, it answers a new
    pair, signed for the user and on the user's count, exactly when the
    token is [renewable]: it verifies as a refresh token, the user looked
    up by its id exists and the user's counter is the count of the token.
    A token on a count that is not the counter of its user (one signed
    before a revocation) is answered [null].  A token that is not
    renewable is answered [null] when its embedded id, if it verifies, is
    one [new ObjectID] accepts; when the token verifies and embeds an id
    [new ObjectID] refuses, [refreshTokens] rejects with the error of
    [new ObjectID]. *)
Theorem refresh_tokens
        (refreshToken aS rS : string) (user : option User.t) (w : World) :
  snd (refreshTokensMutation refreshToken (context aS rS user) w) = w
  /\ (aS <> ""%string ->
      rS <> ""%string ->
      forall pair : AuthPayload.t,
        fst (refreshTokensMutation refreshToken (context aS rS user) w)
        = Return (Some pair)
        <-> exists p u,
              renewable refreshToken rS w p u
              /\ pair = issued_pair (User._id u) (User.count u) aS rS
                                    (now w))
  /\ (forall (p : Payload.t) (u : User.t),
        fst (verify (Some refreshToken) rS w) = Return p ->
        fst (findUserById (Payload.userId p) w) = Return (Some u) ->
        Payload.count p <> Some (User.count u) ->
        refreshTokensMutation refreshToken (context aS rS user) w
        = (Return None, w))
  /\ (well_formed_id refreshToken rS w ->
      (forall p u, ~ renewable refreshToken rS w p u) ->
      refreshTokensMutation refreshToken (context aS rS user) w
      = (Return None, w))
  /\ (forall (p : Payload.t) (s : string),
        fst (verify (Some refreshToken) rS w) = Return p ->
        Payload.userId p = Some s ->
        ObjectID_parse s = None ->
        refreshTokensMutation refreshToken (context aS rS user) w
        = (Throw invalid_id, w)).
Proof.
  rewrite (refreshTokensMutation_run refreshToken aS rS user w).
  cbn [fst snd]. unfold renewable, well_formed_id.
  split; [reflexivity|]. split; [|split; [|split]].
  - intros Ha Hr pair. rewrite (usable_intro Ha Hr). split.
    + destruct (fst (verify (Some refreshToken) rS w)) as [p|];
        [|discriminate].
      destruct (fst (findUserById (Payload.userId p) w)) as [[u|]|] eqn:Hu;
        try discriminate.
      destruct (Payload.count p) as [c|] eqn:Hc; [|discriminate].
      destruct (Z.eqb_spec (User.count u) c) as [Heq|]; [|discriminate].
      subst c. intros [= <-]. exists p, u.
      split; [|reflexivity]. split; [reflexivity|]. split; assumption.
    + intros (p & u & (-> & -> & ->) & ->).
      rewrite Z.eqb_refl. reflexivity.
  - intros p u -> -> Hstale.
    destruct (Payload.count p) as [c|]; [|reflexivity].
    destruct (Z.eqb_spec (User.count u) c); [congruence | reflexivity].
  - intros Hwf Hno.
    destruct (fst (verify (Some refreshToken) rS w)) as [p|];
      [|reflexivity].
    destruct (fst (findUserById (Payload.userId p) w)) as [[u|]|e] eqn:Hu;
      [ | reflexivity | ].
    + destruct (Payload.count p) as [c|] eqn:Hc; [|reflexivity].
      destruct (Z.eqb_spec (User.count u) c) as [Heq|]; [|reflexivity].
      subst c. exfalso. apply (Hno p u).
      split; [reflexivity|]. split; assumption.
    + exfalso. destruct (findUserById_throws _ _ Hu) as [s [Hid Hparse]].
      exact (Hwf p s eq_refl Hid Hparse).
  - intros p s -> Hid Hparse.
    unfold findUserById, bind, new_ObjectID. rewrite Hid, Hparse.
    reflexivity.
Qed.

(** C9.  Both secrets being there: [signUp] throws when a user has the
    email; otherwise (the id minted for the new user being in use by no
    other) one document is added to the collection, with the email, the
    hash of the password and the counter at 0, and the answer is a pair
    signed for that document's id on count 0, together with the count 0;
    the pair is written as cookies when cookies were asked for. *)
Theorem sign_up
        (email password : string) (cookies : option bool)
        (aS rS : string) (user : option User.t) (w : World) :
  aS <> ""%string ->
  rS <> ""%string ->
  find (matches (by_id (fresh w))) (users w) = None ->
  signUpMutation email password cookies (context aS rS user) w
  = match find (matches (by_email email)) (users w) with
    | Some _ =>
        (Throw (Error ("User with " ++ email ++ " already exists")), w)
    | None =>
        let doc := User.mk (fresh w) email (hash password 10) 0 in
        let w1 := with_users w (users w ++ [doc]) in
        let pair := issued_pair (fresh w) 0 aS rS (now w) in
        (Return pair,
         if Boolean cookies
         then snd (addTokensToCookies
                     (AuthTokens.mk (AuthPayload.accessToken pair)
                                    (AuthPayload.refreshToken pair)) w1)
         else w1)
    end.
Proof.
  intros Ha Hr Hfresh. unfold signUpMutation, context.
  cbn [AuthContext.tokenGenerator AuthContext.models
       UserModel.isUser UserModel.createNewUser generateUserModel].
  unfold bind at 1. unfold isUser, findUserByEmail, bind, findOne, ret.
  destruct (find (matches (by_email email)) (users w)) as [u|];
    [reflexivity|].
  unfold createNewUser, bind, new_ObjectID, insertOne.
  cbn [User._id]. rewrite Hfresh. unfold ret.
  cbn [User._id User.count User.email User.passwordHash].
  rewrite signInHelper_run, (usable_intro Ha Hr).
  cbn [Boolean andb now with_users].
  rewrite andb_true_r. reflexivity.
Qed.

End Properties.

(* ===================================================================== *)
(** ** The small implementation meets what is assumed of the packages *)

Module SampleFacts.
Import Sample.

Lemma unframe_frame s rest : unframe (frame s rest) = Some (s, rest).
Proof.
  induction s as [|c s IH]; [reflexivity|].
  cbn [frame]. destruct (Ascii.eqb c ".") eqn:Hc.
  - apply Ascii.eqb_eq in Hc. subst c. cbn [unframe].
    change (Ascii.eqb "!" ",") with false.
    change (Ascii.eqb "!" "!") with true. cbn iota. rewrite IH. reflexivity.
  - cbn [unframe].
    change (Ascii.eqb ":" ",") with false.
    change (Ascii.eqb ":" "!") with false.
    change (Ascii.eqb ":" ":") with true. cbn iota.
    rewrite Hc, IH. reflexivity.
Qed.

Lemma dots_frame s rest : dots (frame s rest) = dots rest.
Proof.
  induction s as [|c s IH]; [reflexivity|].
  cbn [frame]. destruct (Ascii.eqb c ".") eqn:Hc.
  - cbn [dots]. change (Ascii.eqb "!" ".") with false. exact IH.
  - cbn [dots]. change (Ascii.eqb ":" ".") with false. rewrite Hc.
    exact IH.
Qed.

(** What [unframe] reads has no dot. *)
Lemma dots_unframe_bounded (n : nat) :
  forall s f rest,
    (String.length s <= n)%nat ->
    unframe s = Some (f, rest) -> dots s = dots rest.
Proof.
  induction n as [|n IH]; intros s f rest Hlen Hs.
  - destruct s; [discriminate | simpl in Hlen; lia].
  - destruct s as [|m s1]; [discriminate|].
    cbn [unframe] in Hs. cbn [dots]. simpl in Hlen.
    destruct (Ascii.eqb m ",") eqn:Hcomma.
    + apply Ascii.eqb_eq in Hcomma. subst m. injection Hs as _ <-.
      reflexivity.
    + destruct (Ascii.eqb m "!") eqn:Hbang.
      * apply Ascii.eqb_eq in Hbang. subst m.
        destruct (unframe s1) as [[f' r']|] eqn:Hs1; [|discriminate].
        injection Hs as _ <-.
        change (Ascii.eqb "!" ".") with false.
        apply (IH s1 f' r'); [lia | exact Hs1].
      * destruct (Ascii.eqb m ":") eqn:Hcolon; [|discriminate].
        apply Ascii.eqb_eq in Hcolon. subst m.
        destruct s1 as [|c s2]; [discriminate|].
        destruct (Ascii.eqb c ".") eqn:Hc; [discriminate|].
        destruct (unframe s2) as [[f' r']|] eqn:Hs2; [|discriminate].
        injection Hs as _ <-.
        change (Ascii.eqb ":" ".") with false. cbn [dots]. rewrite Hc.
        simpl in Hlen. apply (IH s2 f' r'); [lia | exact Hs2].
Qed.

Lemma dots_unframe s f rest :
  unframe s = Some (f, rest) -> dots s = dots rest.
Proof.
  apply dots_unframe_bounded with (n := String.length s). apply Nat.le_refl.
Qed.

Lemma dots_decode_payload body payload rest :
  decode_payload body = Some (payload, rest) -> dots body = dots rest.
Proof.
  unfold decode_payload.
  destruct (unframe body) as [[f1 r1]|] eqn:H1; [|discriminate].
  destruct (unframe r1) as [[f2 r2]|] eqn:H2; [|discriminate].
  destruct (unframe r2) as [[f3 r3]|] eqn:H3; [|discriminate].
  destruct (unframe r3) as [[f4 r4]|] eqn:H4; [|discriminate].
  destruct (read_opt Some f1); [|discriminate].
  destruct (read_opt readZ f2); [|discriminate].
  destruct (read_opt readZ f3); [|discriminate].
  destruct (read_opt readZ f4); [|discriminate].
  intros [= _ <-].
  rewrite (dots_unframe _ H1), (dots_unframe _ H2), (dots_unframe _ H3).
  apply (dots_unframe _ H4).
Qed.

(** A token that decodes is three segments between two dots. *)
Lemma dots_decode token x : decode token = Some x -> dots token = 2%nat.
Proof.
  unfold decode.
  destruct token as [|h [|d body]]; try discriminate.
  destruct (Ascii.eqb h "J") eqn:Hh; [|discriminate].
  destruct (Ascii.eqb d ".") eqn:Hd; [|discriminate].
  cbn [andb].
  destruct (decode_payload body) as [[payload [|d' signature]]|] eqn:Hp;
    try discriminate.
  destruct (Ascii.eqb d' ".") eqn:Hd'; [|discriminate].
  destruct (unframe signature) as [[secret rest]|] eqn:Hs; [|discriminate].
  destruct (String.eqb_spec rest ""); [|discriminate].
  intros _. subst rest.
  apply Ascii.eqb_eq in Hh. subst h.
  cbn [dots]. change (Ascii.eqb "J" ".") with false. rewrite Hd.
  rewrite (dots_decode_payload _ Hp). cbn [dots]. rewrite Hd'.
  rewrite (dots_unframe _ Hs). reflexivity.
Qed.

Lemma of_bits_bits p : of_bits (bits p) = p.
Proof.
  induction p as [p IH|p IH|]; simpl; rewrite ?IH; reflexivity.
Qed.

Lemma readZ_showZ z : readZ (showZ z) = Some z.
Proof.
  destruct z; simpl; rewrite ?of_bits_bits; reflexivity.
Qed.

Lemma read_show_opt {A} (show : A -> string) (read : string -> option A) :
  (forall a, read (show a) = Some a) ->
  forall v, read_opt read (show_opt show v) = Some v.
Proof.
  intros H [a|]; simpl; [rewrite H|]; reflexivity.
Qed.

Lemma decode_sign data secret expiresIn clock :
  decode (sample_sign data secret expiresIn clock)
  = Some (secret,
          Payload.mk (Payload.userId data) (Payload.count data)
                     (Some clock) (expiry expiresIn clock)).
Proof.
  unfold decode, sample_sign.
  change (Ascii.eqb "J" "J" && Ascii.eqb "." ".") with true. cbn iota.
  unfold decode_payload.
  repeat rewrite unframe_frame.
  rewrite (read_show_opt (fun s => s) Some (fun s => eq_refl)).
  repeat rewrite (read_show_opt showZ readZ readZ_showZ).
  change (Ascii.eqb "." ".") with true. cbn iota.
  rewrite unframe_frame. reflexivity.
Qed.

Lemma jwt_law : @jwt_round_trip Sample.jwt.
Proof.
  intros data secret expiresIn ttl issued clock _ Hspan [_ Hlt].
  split; [discriminate|].
  cbn [jwt_verify jwt_sign Sample.jwt]. unfold sample_verify.
  rewrite decode_sign, String.eqb_refl.
  unfold expiry. rewrite Hspan. cbn [Payload.exp].
  apply Z.ltb_lt in Hlt. rewrite Hlt. reflexivity.
Qed.

Lemma expires_law : @jwt_expires Sample.jwt.
Proof.
  intros data secret expiresIn ttl issued clock _ Hspan Hover.
  cbn [jwt_verify jwt_sign Sample.jwt]. unfold sample_verify.
  rewrite decode_sign, String.eqb_refl.
  unfold expiry. rewrite Hspan. cbn [Payload.exp].
  apply Z.ltb_ge in Hover. rewrite Hover. reflexivity.
Qed.

Lemma wrong_secret_law : @jwt_wrong_secret Sample.jwt.
Proof.
  intros data signed_with secret expiresIn issued clock _ _ Hne.
  cbn [jwt_verify jwt_sign Sample.jwt]. unfold sample_verify.
  rewrite decode_sign. apply String.eqb_neq in Hne. rewrite Hne.
  reflexivity.
Qed.

Lemma malformed_law : @jwt_malformed Sample.jwt.
Proof.
  intros token secret clock _ Hdots.
  cbn [jwt_verify Sample.jwt]. unfold sample_verify.
  destruct (decode token) as [x|] eqn:Hd; [|reflexivity].
  exfalso. apply Hdots. exact (dots_decode _ Hd).
Qed.

Lemma of_unary_unary n : of_unary (unary n) = Some n.
Proof.
  induction n as [|n IH]; simpl; [|rewrite IH]; reflexivity.
Qed.

Lemma hex_law : @hex_round_trip Sample.bson.
Proof.
  intros o. apply of_unary_unary.
Qed.
End SampleFacts.

(* ===================================================================== *)
(** ** The properties at work on the scenario *)

Section Runs.
#[local] Existing Instance Sample.bson.
#[local] Existing Instance Sample.jwt.
#[local] Existing Instance Sample.cookie_pkg.
#[local] Existing Instance Sample.bcrypt.

(** The access token signed for [alice] at time 0 verifies to her id at
    time 100. *)
Lemma access_token_round_trip_witness :
  accessSecret <> ""%string
  /\ now world0 <= now world1 < now world0 + 900
  /\ fst (accessTokenGenerator "aaa" accessSecret world0)
     = Return alice_access
  /\ verifyAccessToken alice_access accessSecret world1
     = (Return (Some (Some "aaa"%string)), world1).
Proof.
  assert (H1 : accessSecret <> ""%string) by discriminate.
  assert (H2 : now world0 <= now world1 < now world0 + 900)
    by (simpl; lia).
  assert (H3 : fst (accessTokenGenerator "aaa" accessSecret world0)
               = Return alice_access) by reflexivity.
  exact (conj H1 (conj H2 (conj H3
           (access_token_round_trip SampleFacts.jwt_law
              "aaa" world0 world1 H1 H2 H3)))).
Defined.

(** [alice]'s bearer request resolves to her and leaves the world alone. *)
Lemma bearer_decides_witness :
  authorization bearer_request = Some ("Bearer " ++ alice_access)%string
  /\ ("Bearer " ++ alice_access)%string <> ""%string
  /\ getActiveUser bearer_request accessSecret refreshSecret
                   generateUserModel world1
     = (Return (Some alice), world1).
Proof.
  assert (H1 : authorization bearer_request
               = Some ("Bearer " ++ alice_access)%string) by reflexivity.
  assert (H2 : ("Bearer " ++ alice_access)%string <> ""%string)
    by discriminate.
  refine (conj H1 (conj H2 _)).
  rewrite (proj1 (bearer_decides bearer_request accessSecret refreshSecret
                                 world1 H1 H2)).
  reflexivity.
Defined.

(** [alice]'s request with the refresh cookie alone renews her session. *)
Lemma renewal_witness :
  accessSecret <> ""%string
  /\ refreshSecret <> ""%string
  /\ truthy (authorization refresh_request) = None
  /\ fst (verify (parse (or_empty (cookie refresh_request)) "access-token")
                 accessSecret world1)
     = Throw (JsonWebTokenError "jwt must be provided")
  /\ fst (verify (parse (or_empty (cookie refresh_request)) "refresh-token")
                 refreshSecret world1)
     = Return alice_refresh_payload
  /\ exists w' : World,
       getActiveUser refresh_request accessSecret refreshSecret
                     generateUserModel world1
       = (Return (Some alice), w')
       /\ users w' = users world1
       /\ now w' = now world1
       /\ fresh w' = fresh world1
       /\ getHeader "Set-Cookie" (response w')
          = Some [ serialize "refresh-token"
                     (jwt_sign (Payload.mk (Some "aaa"%string) (Some 0)
                                           None None)
                               refreshSecret "7d" 100) 604800;
                   serialize "access-token"
                     (jwt_sign (Payload.mk (Some "aaa"%string) None
                                           None None)
                               accessSecret "15min" 100) 54000 ].
Proof.
  assert (Ha : accessSecret <> ""%string) by discriminate.
  assert (Hr : refreshSecret <> ""%string) by discriminate.
  assert (H1 : truthy (authorization refresh_request) = None)
    by reflexivity.
  assert (H2 : fst (verify (parse (or_empty (cookie refresh_request))
                                  "access-token") accessSecret world1)
               = Throw (JsonWebTokenError "jwt must be provided"))
    by reflexivity.
  assert (H3 : fst (verify (parse (or_empty (cookie refresh_request))
                                  "refresh-token") refreshSecret world1)
               = Return alice_refresh_payload)
    by reflexivity.
  refine (conj Ha (conj Hr (conj H1 (conj H2 (conj H3 _))))).
  exact (proj1 (proj1 (renewal refresh_request world1 Ha Hr H1 H2) _ H3)
               alice eq_refl eq_refl).
Defined.

(** [alice]'s access token, sent bare, authenticates her. *)
Lemma bearer_scheme_optional_witness :
  authorization bare_request = Some alice_access
  /\ alice_access <> ""%string
  /\ occurs "Bearer " alice_access = false
  /\ getActiveUser bare_request accessSecret refreshSecret
                   generateUserModel world1
     = (Return (Some alice), world1).
Proof.
  assert (H1 : authorization bare_request = Some alice_access)
    by reflexivity.
  assert (H2 : alice_access <> ""%string) by discriminate.
  assert (H3 : occurs "Bearer " alice_access = false) by reflexivity.
  refine (conj H1 (conj H2 (conj H3 _))).
  rewrite (proj2 (bearer_scheme_optional bare_request accessSecret
                                         refreshSecret world1 H1 H2) H3).
  reflexivity.
Defined.

(** A revocation by a request that resolved [alice] at her stored count
    takes the stored count from 0 to 1. *)
Lemma revocation_overwrites_witness :
  AuthContext.models alice_context = generateUserModel
  /\ AuthContext.user alice_context = Some alice
  /\ safe_integer (User.count alice)
  /\ find (matches (by_id (User._id alice))) (users world1) = Some alice
  /\ exists w' : World,
       invalidateTokensMutation alice_context world1
       = (Return (negb (User.count alice + 1 =? User.count alice)), w')
       /\ find (matches (by_id (User._id alice))) (users w')
          = Some (apply_update (set_count (User.count alice + 1)) alice)
       /\ response w' = response world1
       /\ (User.count alice = User.count alice ->
           invalidateTokensMutation alice_context world1 = (Return true, w')
           /\ User.count
                (apply_update (set_count (User.count alice + 1)) alice)
              = User.count alice + 1).
Proof.
  assert (H1 : AuthContext.models alice_context = generateUserModel)
    by reflexivity.
  assert (H2 : AuthContext.user alice_context = Some alice) by reflexivity.
  assert (Hs : safe_integer (User.count alice))
    by (unfold safe_integer; simpl; lia).
  assert (H3 : find (matches (by_id (User._id alice))) (users world1)
               = Some alice) by reflexivity.
  exact (conj H1 (conj H2 (conj Hs (conj H3
           (revocation_overwrites SampleFacts.hex_law alice_context
                                  world1 H1 H2 Hs H3))))).
Defined.

(** [alice]'s refresh token, passed to [refreshTokens] while her counter is
    still 0, is answered by a new pair; had she no account, it would be
    answered [null]. *)
Lemma refresh_tokens_witness :
  accessSecret <> ""%string
  /\ refreshSecret <> ""%string
  /\ renewable alice_refresh refreshSecret world1 alice_refresh_payload
               alice
  /\ fst (refreshTokensMutation alice_refresh anonymous_context world1)
     = Return (Some (issued_pair (User._id alice) (User.count alice)
                                 accessSecret refreshSecret (now world1)))
  /\ well_formed_id alice_refresh refreshSecret (with_users world1 [])
  /\ (forall p u,
         ~ renewable alice_refresh refreshSecret (with_users world1 []) p u)
  /\ refreshTokensMutation alice_refresh anonymous_context
                           (with_users world1 [])
     = (Return None, with_users world1 []).
Proof.
  assert (Ha : accessSecret <> ""%string) by discriminate.
  assert (Hr : refreshSecret <> ""%string) by discriminate.
  assert (H1 : renewable alice_refresh refreshSecret world1
                         alice_refresh_payload alice)
    by (repeat split).
  assert (H2 : well_formed_id alice_refresh refreshSecret
                              (with_users world1 [])).
  { intros p s Hp Hs. vm_compute in Hp. injection Hp as <-.
    injection Hs as <-. discriminate. }
  assert (H3 : forall p u,
             ~ renewable alice_refresh refreshSecret
                         (with_users world1 []) p u).
  { intros p u (Hp & Hu & _). vm_compute in Hp. injection Hp as <-.
    vm_compute in Hu. discriminate. }
  refine (conj Ha (conj Hr (conj H1 (conj _ (conj H2 (conj H3 _)))))).
  - exact (proj2 (proj1 (proj2 (refresh_tokens alice_refresh accessSecret
                                               refreshSecret None world1))
                        Ha Hr _)
                 (ex_intro _ _ (ex_intro _ _ (conj H1 eq_refl)))).
  - exact (proj1 (proj2 (proj2 (proj2
             (refresh_tokens alice_refresh accessSecret refreshSecret None
                             (with_users world1 [])))))
                 H2 H3).
Defined.

(** C5 as stated fails: a token that verifies as a refresh token but
    embeds an id that is no ObjectID is answered neither a pair nor
    [null]: the look-up, awaited outside any [try], throws, and
    [refreshTokens] rejects. *)
Lemma refresh_tokens_rejects :
  fst (verify (Some odd_refresh) refreshSecret world1)
  = Return (Payload.mk (Some "zz"%string) (Some 0) (Some 0) (Some 604800))
  /\ ObjectID_parse "zz" = None
  /\ refreshTokensMutation odd_refresh anonymous_context world1
     = (Throw (Error "Argument passed in must be a single String of 12 bytes or a string of 24 hex characters"), world1)
  /\ (forall pair,
        fst (refreshTokensMutation odd_refresh anonymous_context world1)
        <> Return (Some pair))
  /\ fst (refreshTokensMutation odd_refresh anonymous_context world1)
     <> Return None.
Proof.
  repeat split; discriminate.
Qed.

(** A second user signs up, asking for cookies. *)
Lemma sign_up_witness :
  accessSecret <> ""%string
  /\ refreshSecret <> ""%string
  /\ find (matches (by_id (fresh world1))) (users world1) = None
  /\ exists w' : World,
       signUpMutation "b@x.com" "pw2" (Some true) anonymous_context world1
       = (Return (issued_pair 4%nat 0 accessSecret refreshSecret 100), w')
       /\ users w' = [alice; User.mk 4%nat "b@x.com" (hash "pw2" 10) 0].
Proof.
  assert (Ha : accessSecret <> ""%string) by discriminate.
  assert (Hr : refreshSecret <> ""%string) by discriminate.
  assert (H1 : find (matches (by_id (fresh world1))) (users world1) = None)
    by reflexivity.
  refine (conj Ha (conj Hr (conj H1 _))).
  eexists. unfold anonymous_context.
  rewrite (sign_up "b@x.com" "pw2" (Some true) None world1 Ha Hr H1).
  split; reflexivity.
Defined.

(** [alice]'s refresh token under the four promises of jsonwebtoken: its
    claims within the 7 days, [null] after them, [null] under the access
    secret, and [null] for a string without dots. *)
Lemma verification_total_witness :
  accepted alice_refresh refreshSecret world1
           (Payload.mk (Some "aaa"%string) (Some 0) None None)
  /\ refused alice_refresh refreshSecret world_late
  /\ refused alice_refresh accessSecret world1
  /\ refused "not a token" refreshSecret world1.
Proof.
  assert (Ha : accessSecret <> ""%string) by discriminate.
  assert (Hr : refreshSecret <> ""%string) by discriminate.
  assert (Hne : refreshSecret <> accessSecret) by discriminate.
  assert (Hd : dots "not a token" <> 2%nat) by discriminate.
  assert (Hin : now world0 <= now world1 < now world0 + 604800)
    by (simpl; lia).
  assert (Hout : now world0 + 604800 <= now world_late) by (simpl; lia).
  refine (conj _ (conj _ (conj _ _))).
  - exact (proj1 (proj1 (proj2
             (verification_total SampleFacts.jwt_law SampleFacts.expires_law
                SampleFacts.wrong_secret_law SampleFacts.malformed_law
                alice_refresh refreshSecret world1))
             (Payload.mk (Some "aaa"%string) (Some 0) None None)
             "7d"%string 604800 (now world0) Hr eq_refl eq_refl) Hin).
  - exact (proj2 (proj1 (proj2
             (verification_total SampleFacts.jwt_law SampleFacts.expires_law
                SampleFacts.wrong_secret_law SampleFacts.malformed_law
                alice_refresh refreshSecret world_late))
             (Payload.mk (Some "aaa"%string) (Some 0) None None)
             "7d"%string 604800 (now world0) Hr eq_refl eq_refl) Hout).
  - exact (proj1 (proj2 (proj2
             (verification_total SampleFacts.jwt_law SampleFacts.expires_law
                SampleFacts.wrong_secret_law SampleFacts.malformed_law
                alice_refresh accessSecret world1)))
             (Payload.mk (Some "aaa"%string) (Some 0) None None)
             refreshSecret "7d"%string (now world0) Hr Ha Hne eq_refl).
  - exact (proj2 (proj2 (proj2
             (verification_total SampleFacts.jwt_law SampleFacts.expires_law
                SampleFacts.wrong_secret_law SampleFacts.malformed_law
                "not a token" refreshSecret world1))) Hd).
Defined.

(** C2 as stated fails: on [alice]'s store an unknown email and a wrong
    password are answered by two different exceptions. *)
Lemma credential_failures_differ :
  fst (getValidatedUser "b@x.com" "pw" generateUserModel world1)
  = Throw (Error "Invalid email provided")
  /\ fst (getValidatedUser "a@x.com" "wrong" generateUserModel world1)
     = Throw (Error "Invalid credential combination")
  /\ fst (getValidatedUser "b@x.com" "pw" generateUserModel world1)
     <> fst (getValidatedUser "a@x.com" "wrong" generateUserModel world1).
Proof.
  repeat split; try reflexivity. discriminate.
Qed.

(** The refresh token [alice] held before she revoked is answered [null]
    afterwards. *)
Example refresh_after_revocation :
  refreshTokensMutation alice_refresh anonymous_context
    (snd (invalidateTokensMutation alice_context world1))
  = (Return None, snd (invalidateTokensMutation alice_context world1)).
Proof.
  reflexivity.
Qed.

(** C3 as stated fails: two requests resolve [alice] while her stored count
    is 0, then each revokes; the stored count ends at 1, not at 2, and the
    second revocation answers [false]. *)
Lemma concurrent_revocations_collapse :
  getActiveUser bearer_request accessSecret refreshSecret
                generateUserModel world1
  = (Return (AuthContext.user alice_context), world1)
  /\ exists w' w'' : World,
       invalidateTokensMutation alice_context world1 = (Return true, w')
       /\ invalidateTokensMutation alice_context w' = (Return false, w'')
       /\ map User.count (users world1) = [0]
       /\ map User.count (users w'') = [1].
Proof.
  split; [reflexivity|].
  do 2 eexists. repeat split.
Qed.

(** C10 as stated fails: a header that holds [Bearer ] after its first
    character does not begin with it and is no valid access token, yet the
    request is authenticated as [alice]: what was verified is the header
    less that inner [Bearer ], not the header. *)
Lemma bearer_inside_header :
  authorization inner_request = Some (inner_bearer alice_access)
  /\ String.prefix "Bearer " (inner_bearer alice_access) = false
  /\ replace "Bearer " "" (inner_bearer alice_access) = alice_access
  /\ fst (verify (Some (inner_bearer alice_access)) accessSecret world1)
     = Throw (JsonWebTokenError "jwt malformed")
  /\ getActiveUser inner_request accessSecret refreshSecret
                   generateUserModel world1
     = (Return (Some alice), world1)
  /\ getActiveUser inner_request accessSecret refreshSecret
                   generateUserModel world1
     <> (match fst (verify (Some (inner_bearer alice_access))
                           accessSecret world1) with
         | Return p => fst (findUserById (Payload.userId p) world1)
         | Throw _ => Return None
         end, world1).
Proof.
  repeat split. discriminate.
Qed.

End Runs.


(* ===================================================================== *)
(** ** Further properties of the code *)

Section Further.
Context {bson : Bson} {jwt : JsonWebToken} {cookie_pkg : Cookie}
        {bcrypt : Bcrypt}.

(** *** Strings *)

Lemma truthy_inv v s : truthy v = Some s -> v = Some s /\ s <> ""%string.
Proof.
  unfold truthy. destruct v as [t|]; [|discriminate].
  destruct (String.eqb_spec t ""); [discriminate|].
  intros [= <-]. split; [reflexivity | assumption].
Qed.

Lemma prefix_app pat s : String.prefix pat (pat ++ s) = true.
Proof.
  induction pat as [|c pat IH]; simpl.
  - destruct s; reflexivity.
  - destruct (ascii_dec c c); [exact IH | congruence].
Qed.

Lemma substring_all s : String.substring 0 (String.length s) s = s.
Proof.
  induction s as [|c s IH]; simpl; [|rewrite IH]; reflexivity.
Qed.

Lemma substring_after pat s :
  String.substring (String.length pat)
                   (String.length (pat ++ s) - String.length pat) (pat ++ s)
  = s.
Proof.
  induction pat as [|c pat IH]; simpl.
  - rewrite Nat.sub_0_r. apply substring_all.
  - exact IH.
Qed.

Lemma replace_prefix pat s : replace pat "" (pat ++ s) = s.
Proof.
  assert (H : replace pat "" (pat ++ s)
              = ("" ++ String.substring (String.length pat)
                         (String.length (pat ++ s) - String.length pat)
                         (pat ++ s))%string).
  { destruct (pat ++ s)%string eqn:E; cbn [replace];
      rewrite <- E, prefix_app; reflexivity. }
  rewrite H. simpl. apply substring_after.
Qed.

(** *** Tokens *)

(** X1.  A refresh token made by the generator over two secrets verifies,
    through the same generator and at any time within the 7 days, to the
    user id and the count it was made for. *)
Theorem refresh_token_round_trip
        (law : jwt_round_trip) (aS rS userId : string) (count : Z)
        (issue check : World) (token : string) :
  rS <> ""%string ->
  now issue <= now check < now issue + 604800 ->
  fst (TokenGenerator.refreshToken (tokenGeneratorWithSecrets aS rS)
                                   userId count issue)
  = Return token ->
  TokenGenerator.verifyRefreshToken (tokenGeneratorWithSecrets aS rS)
                                    token check
  = (Return (Some (VerifiedRefreshToken.mk (Some userId) (Some count))),
     check).
Proof.
  intros Hsecret Htime Htoken.
  cbn [TokenGenerator.refreshToken TokenGenerator.verifyRefreshToken
       tokenGeneratorWithSecrets] in *.
  unfold refreshTokenGenerator, tokenGenerator in Htoken.
  rewrite (sign_run _ _ _ Hsecret) in Htoken.
  simpl in Htoken. injection Htoken as <-.
  destruct (law (Payload.mk (Some userId) (Some count) None None) rS
                "7d"%string 604800 (now issue) (now check)
                Hsecret eq_refl Htime) as [Hne Hv].
  unfold verifyRefreshToken, try_catch, bind, ret, verify, truthy.
  apply String.eqb_neq in Hne. rewrite Hne, Hv. reflexivity.
Qed.

(** *** The session resolver, the other paths *)

Lemma verify_falsy token secret w :
  truthy token = None ->
  fst (verify token secret w) = Throw (JsonWebTokenError "jwt must be provided").
Proof.
  intros H. unfold verify. rewrite H. reflexivity.
Qed.

(** [getActiveUser] when the access cookie verifies. *)
Lemma getActiveUser_access req aS rS w p :
  truthy (authorization req) = None ->
  fst (verify (parse (or_empty (cookie req)) "access-token") aS w)
  = Return p ->
  getActiveUser req aS rS generateUserModel w
  = (fst (findUserById (Payload.userId p) w), w).
Proof.
  intros Hauth Haccess.
  destruct (verify_returns _ _ _ Haccess) as [t Ht].
  unfold getActiveUser. rewrite Hauth, Ht.
  unfold bind at 1. unfold attempt.
  rewrite (verify_run _ aS w), Haccess.
  change (UserModel.findUserById generateUserModel) with findUserById.
  apply findUserById_run.
Qed.

(** X2.  Without an authorization header, an access cookie that verifies
    decides: the result is that of looking up its embedded id, and nothing
    is rotated, the world is as it was, whatever the refresh cookie is. *)
Theorem access_cookie_decides
        (req : IncomingMessage) (aS rS : string) (w : World)
        (p : Payload.t) :
  truthy (authorization req) = None ->
  fst (verify (parse (or_empty (cookie req)) "access-token") aS w)
  = Return p ->
  getActiveUser req aS rS generateUserModel w
  = (fst (findUserById (Payload.userId p) w), w).
Proof.
  apply getActiveUser_access.
Qed.

(** X3.  Whatever the request, [getActiveUser] leaves the users collection,
    the clock and the id generator alone; unless it returns a user, it
    leaves the whole world alone, the response with it; and a request with
    neither an authorization header nor any of the two cookies is answered
    [null]. *)
Theorem getActiveUser_frame
        (req : IncomingMessage) (aS rS : string) (w : World) :
  users (snd (getActiveUser req aS rS generateUserModel w)) = users w
  /\ now (snd (getActiveUser req aS rS generateUserModel w)) = now w
  /\ fresh (snd (getActiveUser req aS rS generateUserModel w)) = fresh w
  /\ ((forall u, fst (getActiveUser req aS rS generateUserModel w)
                 <> Return (Some u)) ->
      snd (getActiveUser req aS rS generateUserModel w) = w)
  /\ (truthy (authorization req) = None ->
      truthy (parse (or_empty (cookie req)) "access-token") = None ->
      truthy (parse (or_empty (cookie req)) "refresh-token") = None ->
      getActiveUser req aS rS generateUserModel w = (Return None, w)).
Proof.
  assert (Hcases :
    snd (getActiveUser req aS rS generateUserModel w) = w
    \/ exists u tokens,
         getActiveUser req aS rS generateUserModel w
         = (Return (Some u), snd (addTokensToCookies tokens w))).
  { destruct (truthy (authorization req)) as [b|] eqn:Hauth.
    - destruct (truthy_inv _ Hauth) as [Hh Hne].
      left. rewrite (getActiveUser_bearer req aS rS w Hh Hne). reflexivity.
    - destruct (fst (verify (parse (or_empty (cookie req)) "access-token")
                            aS w)) as [p|e] eqn:Haccess.
      + left. rewrite (getActiveUser_access req aS rS w Hauth Haccess).
        reflexivity.
      + destruct (fst (verify (parse (or_empty (cookie req)) "refresh-token")
                              rS w)) as [p|e'] eqn:Hrefresh.
        * rewrite (getActiveUser_refresh req aS rS w Hauth Haccess Hrefresh).
          destruct (fst (findUserById (Payload.userId p) w)) as [[u|]|];
            [|left; reflexivity|left; reflexivity].
          destruct (count_eq (Payload.count p) (User.count u) && usable aS rS);
            [|left; reflexivity].
          right. eexists. eexists. reflexivity.
        * left.
          rewrite (getActiveUser_no_cookie req aS rS w Hauth Haccess
                                           Hrefresh).
          reflexivity. }
  repeat split.
  - destruct Hcases as [-> | (u & tokens & ->)]; reflexivity.
  - destruct Hcases as [-> | (u & tokens & ->)]; reflexivity.
  - destruct Hcases as [-> | (u & tokens & ->)]; reflexivity.
  - intros Hnone. destruct Hcases as [Hw | (u & tokens & Hrun)];
      [exact Hw|].
    exfalso. apply (Hnone u). rewrite Hrun. reflexivity.
  - intros Hauth Ha Hr.
    apply getActiveUser_no_cookie
      with (e := JsonWebTokenError "jwt must be provided")
           (e' := JsonWebTokenError "jwt must be provided");
      [exact Hauth | |]; apply verify_falsy; assumption.
Qed.

Lemma getActiveUser_standard cookies token aS rS w :
  getActiveUser (bearer cookies token) aS rS generateUserModel w
  = (match fst (verify (Some token) aS w) with
     | Return p => fst (findUserById (Payload.userId p) w)
     | Throw _ => Return None
     end, w).
Proof.
  assert (Hne : ("Bearer " ++ token)%string <> ""%string) by discriminate.
  rewrite (getActiveUser_bearer (bearer cookies token) aS rS w
             (header := ("Bearer " ++ token)%string) eq_refl Hne).
  rewrite (replace_prefix "Bearer " token). reflexivity.
Qed.

(** X4.  The standard header [Bearer <token>] has exactly [<token>]
    verified, whatever the token holds: the result is the look-up of the
    id embedded in the token, or [null] when the token does not verify. *)
Theorem standard_bearer_header
        (cookies : option string) (token aS rS : string) (w : World) :
  getActiveUser (bearer cookies token) aS rS generateUserModel w
  = (match fst (verify (Some token) aS w) with
     | Return p => fst (findUserById (Payload.userId p) w)
     | Throw _ => Return None
     end, w).
Proof.
  apply getActiveUser_standard.
Qed.

(** *** The collection *)

Lemma matches_by_id_refl (u : User.t) : matches (by_id (User._id u)) u = true.
Proof.
  simpl. destruct (ObjectID_eq_dec (User._id u) (User._id u)); congruence.
Qed.

Lemma unique_ids_find l u :
  unique_ids l -> In u l -> find (matches (by_id (User._id u))) l = Some u.
Proof.
  unfold unique_ids. induction l as [|x l IH]; intros Hnd Hin; [contradiction|].
  simpl in Hnd. inversion Hnd as [|? ? Hnotin Hnd']; subst.
  destruct Hin as [->|Hin].
  - cbn [find]. rewrite matches_by_id_refl. reflexivity.
  - cbn [find]. destruct (matches (by_id (User._id u)) x) eqn:Hm.
    + exfalso. apply Hnotin.
      simpl in Hm. destruct (ObjectID_eq_dec (User._id x) (User._id u)) as [E|];
        [|discriminate].
      rewrite E. apply in_map. exact Hin.
    + apply IH; assumption.
Qed.

Lemma find_app_some {A} (f : A -> bool) l l' x :
  find f l = Some x -> find f (l ++ l') = Some x.
Proof.
  induction l as [|a l IH]; simpl; [discriminate|].
  destruct (f a); [trivial | exact IH].
Qed.

Lemma find_app_none {A} (f : A -> bool) l l' :
  find f l = None -> find f (l ++ l') = find f l'.
Proof.
  induction l as [|a l IH]; simpl; [reflexivity|].
  destruct (f a); [discriminate | exact IH].
Qed.

Lemma update_first_none q d l :
  find (matches q) l = None -> update_first q d l = (l, 0).
Proof.
  induction l as [|u l IH]; simpl; [reflexivity|].
  destruct (matches q u); [discriminate|].
  intros H. rewrite (IH H). reflexivity.
Qed.

Lemma identity_apply_update d u : identity (apply_update d u) = identity u.
Proof.
  destruct d. reflexivity.
Qed.

Lemma update_first_identity q d l :
  map identity (fst (update_first q d l)) = map identity l.
Proof.
  induction l as [|u l IH]; simpl; [reflexivity|].
  destruct (matches q u).
  - simpl. rewrite identity_apply_update. reflexivity.
  - destruct (update_first q d l) as [l' n]. simpl in *. rewrite IH.
    reflexivity.
Qed.

Lemma update_first_others q d l x :
  In x (fst (update_first q d l)) -> matches q x = false -> In x l.
Proof.
  induction l as [|u l IH]; simpl; [trivial|].
  destruct (matches q u) eqn:Hm.
  - simpl. intros [<-|Hin] Hx; [|right; exact Hin].
    rewrite matches_apply_update, Hm in Hx. discriminate.
  - destruct (update_first q d l) as [l' n]. simpl in *.
    intros [<-|Hin] Hx; [left; reflexivity | right; apply IH; assumption].
Qed.

Lemma map_identity_ids (l l' : list User.t) :
  map identity l = map identity l' -> map User._id l = map User._id l'.
Proof.
  intros H.
  assert (E : forall k : list User.t,
             map User._id k = map (fun t => fst (fst t)) (map identity k))
    by (intros k; rewrite map_map; reflexivity).
  rewrite (E l), (E l'), H. reflexivity.
Qed.

Lemma map_identity_emails (l l' : list User.t) :
  map identity l = map identity l' -> map User.email l = map User.email l'.
Proof.
  intros H.
  assert (E : forall k : list User.t,
             map User.email k = map (fun t => snd (fst t)) (map identity k))
    by (intros k; rewrite map_map; reflexivity).
  rewrite (E l), (E l'), H. reflexivity.
Qed.

Lemma findUserById_hex (hl : hex_round_trip) (o : ObjectID) (w : World) :
  findUserById (Some (toHexString o)) w
  = (Return (find (matches (by_id o)) (users w)), w).
Proof.
  unfold findUserById, bind, new_ObjectID. rewrite (hl o). reflexivity.
Qed.

Lemma verify_issued (jl : jwt_round_trip) data secret expiresIn ttl
      (issue check : World) :
  secret <> ""%string ->
  timespan expiresIn = Some ttl ->
  now issue <= now check < now issue + ttl ->
  fst (verify (Some (jwt_sign data secret expiresIn (now issue)))
              secret check)
  = Return (Payload.mk (Payload.userId data) (Payload.count data)
                       (Some (now issue)) (Some (now issue + ttl))).
Proof.
  intros Hs Ht Hw.
  destruct (jl data secret expiresIn ttl (now issue) (now check) Hs Ht Hw)
    as [Hne Hv].
  unfold verify, truthy. apply String.eqb_neq in Hne. rewrite Hne.
  simpl. exact Hv.
Qed.

(** *** The resolvers, computed *)

Lemma signInMutation_run email password cookies aS rS user w :
  signInMutation email password cookies (context aS rS user) w
  = match find (matches (by_email email)) (users w) with
    | None => (Throw (Error "Invalid email provided"), w)
    | Some u =>
        if compare password (User.passwordHash u)
        then
          if usable aS rS
          then
            let pair :=
              issued_pair (User._id u) (User.count u) aS rS (now w) in
            (Return pair,
             if Boolean cookies
             then snd (addTokensToCookies
                         (AuthTokens.mk (AuthPayload.accessToken pair)
                                        (AuthPayload.refreshToken pair)) w)
             else w)
          else (Throw no_secret, w)
        else (Throw (Error "Invalid credential combination"), w)
    end.
Proof.
  unfold signInMutation, context.
  cbn [AuthContext.tokenGenerator AuthContext.models].
  unfold bind at 1. unfold getValidatedUser, bind.
  cbn [UserModel.findUserByEmail generateUserModel].
  unfold findUserByEmail, findOne.
  destruct (find (matches (by_email email)) (users w)) as [u|];
    [|reflexivity].
  destruct (compare password (User.passwordHash u)); [|reflexivity].
  cbn [negb]. unfold ret. rewrite signInHelper_run.
  cbn [Boolean]. rewrite andb_true_r. reflexivity.
Qed.

Lemma signUpMutation_run email password cookies aS rS user w :
  signUpMutation email password cookies (context aS rS user) w
  = match find (matches (by_email email)) (users w) with
    | Some _ =>
        (Throw (Error ("User with " ++ email ++ " already exists")), w)
    | None =>
        match find (matches (by_id (fresh w))) (users w) with
        | Some _ => (Throw (MongoError "E11000 duplicate key error"), w)
        | None =>
            let doc := User.mk (fresh w) email (hash password 10) 0 in
            let w1 := with_users w (users w ++ [doc]) in
            if usable aS rS
            then
              let pair := issued_pair (fresh w) 0 aS rS (now w) in
              (Return pair,
               if Boolean cookies
               then snd (addTokensToCookies
                           (AuthTokens.mk (AuthPayload.accessToken pair)
                                          (AuthPayload.refreshToken pair)) w1)
               else w1)
            else (Throw no_secret, w1)
        end
    end.
Proof.
  unfold signUpMutation, context.
  cbn [AuthContext.tokenGenerator AuthContext.models
       UserModel.isUser UserModel.createNewUser generateUserModel].
  unfold bind at 1. unfold isUser, findUserByEmail, bind, findOne, ret.
  destruct (find (matches (by_email email)) (users w)) as [u|];
    [reflexivity|].
  unfold createNewUser, bind, new_ObjectID, insertOne.
  cbn [User._id].
  destruct (find (matches (by_id (fresh w))) (users w)); [reflexivity|].
  unfold ret.
  cbn [User._id User.count User.email User.passwordHash].
  rewrite signInHelper_run. cbn [Boolean andb now with_users].
  rewrite andb_true_r. reflexivity.
Qed.

Lemma invalidateTokensMutation_run (hl : hex_round_trip) aS rS u w :
  invalidateTokensMutation (context aS rS (Some u)) w
  = (Return (snd (update_first (by_id (User._id u))
                               (set_count (User.count u + 1)) (users w))
             =? 1),
     with_users w (fst (update_first (by_id (User._id u))
                                     (set_count (User.count u + 1))
                                     (users w)))).
Proof.
  unfold invalidateTokensMutation, context.
  cbn [AuthContext.user AuthContext.models UserModel.updateUser
       generateUserModel].
  unfold updateUser, bind, new_ObjectID. rewrite (hl (User._id u)).
  unfold ret, updateOne.
  destruct (update_first (by_id (User._id u))
                         (set_count (User.count u + 1)) (users w));
    reflexivity.
Qed.

(** Whatever the context, a revocation leaves the world as it was or
    updates the first document that matches some query. *)
Lemma invalidateTokensMutation_cases aS rS user w :
  snd (invalidateTokensMutation (context aS rS user) w) = w
  \/ exists q d,
       snd (invalidateTokensMutation (context aS rS user) w)
       = with_users w (fst (update_first q d (users w))).
Proof.
  unfold invalidateTokensMutation, context.
  cbn [AuthContext.user AuthContext.models UserModel.updateUser
       generateUserModel].
  destruct user as [u|]; [|left; reflexivity].
  unfold updateUser, bind, new_ObjectID.
  destruct (ObjectID_parse (toHexString (User._id u))) as [o|];
    [|left; reflexivity].
  right. exists (by_id o), (set_count (User.count u + 1)).
  unfold ret, updateOne.
  destruct (update_first (by_id o) (set_count (User.count u + 1)) (users w));
    reflexivity.
Qed.

(** *** Tokens the subsystem issued, presented again *)

(** X5.  An access token the generator made for an ObjectID resolves, in
    a standard bearer header and within its 15 minutes, to the document
    that has that id (to [null] when there is none), and the world is left
    as it was. *)
Theorem issued_access_token_resolves
        (jl : jwt_round_trip) (hl : hex_round_trip)
        (cookies : option string) (aS rS : string) (o : ObjectID)
        (issue check : World) (token : string) :
  aS <> ""%string ->
  now issue <= now check < now issue + 900 ->
  fst (TokenGenerator.accessToken (tokenGeneratorWithSecrets aS rS)
                                  (toHexString o) issue)
  = Return token ->
  getActiveUser (bearer cookies token) aS rS generateUserModel check
  = (Return (find (matches (by_id o)) (users check)), check).
Proof.
  intros Hs Hw Htoken.
  cbn [TokenGenerator.accessToken tokenGeneratorWithSecrets] in Htoken.
  unfold accessTokenGenerator, tokenGenerator in Htoken.
  rewrite (sign_run _ _ _ Hs) in Htoken.
  simpl in Htoken. injection Htoken as <-.
  rewrite getActiveUser_standard.
  rewrite (verify_issued jl (Payload.mk (Some (toHexString o)) None None None)
                         "15min" issue check Hs eq_refl Hw).
  cbn [Payload.userId]. rewrite (findUserById_hex hl). reflexivity.
Qed.

(** X6.  Both secrets being there, a refresh token the generator made
    for an ObjectID and a count is honoured by [refreshTokens], within its
    7 days and while a document has that id, exactly when the counter of
    the document is that count: the answer is then a new pair on the same
    id and count, and [null] otherwise. *)
Theorem issued_refresh_token_renews
        (jl : jwt_round_trip) (hl : hex_round_trip)
        (aS rS : string) (user : option User.t) (o : ObjectID) (count : Z)
        (issue check : World) (token : string) (u : User.t) :
  aS <> ""%string ->
  rS <> ""%string ->
  now issue <= now check < now issue + 604800 ->
  fst (TokenGenerator.refreshToken (tokenGeneratorWithSecrets aS rS)
                                   (toHexString o) count issue)
  = Return token ->
  find (matches (by_id o)) (users check) = Some u ->
  refreshTokensMutation token (context aS rS user) check
  = (Return (if User.count u =? count
             then Some (issued_pair o count aS rS (now check))
             else None), check).
Proof.
  intros Ha Hs Hw Htoken Hu.
  cbn [TokenGenerator.refreshToken tokenGeneratorWithSecrets] in Htoken.
  unfold refreshTokenGenerator, tokenGenerator in Htoken.
  rewrite (sign_run _ _ _ Hs) in Htoken.
  simpl in Htoken. injection Htoken as <-.
  rewrite refreshTokensMutation_run.
  rewrite (verify_issued jl
             (Payload.mk (Some (toHexString o)) (Some count) None None)
             "7d" issue check Hs eq_refl Hw).
  cbn [Payload.userId Payload.count].
  rewrite (findUserById_hex hl). cbn [fst]. rewrite Hu.
  rewrite (find_by_id _ _ Hu), (usable_intro Ha Hs).
  destruct (User.count u =? count); reflexivity.
Qed.

(** X7.  Both secrets being there, the same refresh token as the refresh
    cookie of a request with no authorization header and no valid access
    cookie: the session is renewed, both cookies being set, exactly when
    the counter of the document is the count of the token; otherwise the
    answer is [null] and the world is left as it was. *)
Theorem issued_refresh_cookie_renews
        (jl : jwt_round_trip) (hl : hex_round_trip)
        (req : IncomingMessage) (aS rS : string) (o : ObjectID) (count : Z)
        (issue check : World) (token : string) (u : User.t) (e : exn) :
  aS <> ""%string ->
  rS <> ""%string ->
  now issue <= now check < now issue + 604800 ->
  fst (TokenGenerator.refreshToken (tokenGeneratorWithSecrets aS rS)
                                   (toHexString o) count issue)
  = Return token ->
  find (matches (by_id o)) (users check) = Some u ->
  truthy (authorization req) = None ->
  fst (verify (parse (or_empty (cookie req)) "access-token") aS check)
  = Throw e ->
  parse (or_empty (cookie req)) "refresh-token" = Some token ->
  getActiveUser req aS rS generateUserModel check
  = if User.count u =? count
    then (Return (Some u),
          snd (addTokensToCookies
                 (AuthTokens.mk
                    (AuthPayload.accessToken
                       (issued_pair o count aS rS (now check)))
                    (AuthPayload.refreshToken
                       (issued_pair o count aS rS (now check))))
                 check))
    else (Return None, check).
Proof.
  intros Ha Hs Hw Htoken Hu Hauth Haccess Hcookie.
  cbn [TokenGenerator.refreshToken tokenGeneratorWithSecrets] in Htoken.
  unfold refreshTokenGenerator, tokenGenerator in Htoken.
  rewrite (sign_run _ _ _ Hs) in Htoken.
  simpl in Htoken. injection Htoken as <-.
  assert (Hrefresh :
    fst (verify (parse (or_empty (cookie req)) "refresh-token") rS check)
    = Return (Payload.mk (Some (toHexString o)) (Some count)
                         (Some (now issue)) (Some (now issue + 604800)))).
  { rewrite Hcookie.
    exact (verify_issued jl
             (Payload.mk (Some (toHexString o)) (Some count) None None)
             "7d" issue check Hs eq_refl Hw). }
  rewrite (getActiveUser_refresh req aS rS check Hauth Haccess Hrefresh).
  cbn [Payload.userId Payload.count].
  rewrite (findUserById_hex hl). cbn [fst]. rewrite Hu.
  rewrite (usable_intro Ha Hs), andb_true_r.
  unfold count_eq. rewrite Z.eqb_sym.
  destruct (Z.eqb_spec (User.count u) count) as [Hc|]; [|reflexivity].
  rewrite (find_by_id _ _ Hu), Hc. reflexivity.
Qed.

(** *** Sign-in *)

(** X8.  [signIn] never changes the users collection.  It throws, the
    world untouched, for an email no document has and for a password that
    does not compare, and, the credentials being right, with the error of
    jsonwebtoken when one of the two secrets is empty; otherwise it answers
    the pair signed for the id and on the current counter of the first
    document with the email, and writes it as cookies exactly when cookies
    were asked for. *)
Theorem sign_in
        (email password : string) (cookies : option bool)
        (aS rS : string) (user : option User.t) (w : World) :
  signInMutation email password cookies (context aS rS user) w
  = match find (matches (by_email email)) (users w) with
    | None => (Throw (Error "Invalid email provided"), w)
    | Some u =>
        if compare password (User.passwordHash u)
        then
          if usable aS rS
          then
            let pair :=
              issued_pair (User._id u) (User.count u) aS rS (now w) in
            (Return pair,
             if Boolean cookies
             then snd (addTokensToCookies
                         (AuthTokens.mk (AuthPayload.accessToken pair)
                                        (AuthPayload.refreshToken pair)) w)
             else w)
          else (Throw no_secret, w)
        else (Throw (Error "Invalid credential combination"), w)
    end
  /\ users (snd (signInMutation email password cookies
                                (context aS rS user) w))
     = users w.
Proof.
  rewrite signInMutation_run. split; [reflexivity|].
  destruct (find (matches (by_email email)) (users w)) as [u|];
    [|reflexivity].
  destruct (compare password (User.passwordHash u)); [|reflexivity].
  destruct (usable aS rS); [|reflexivity].
  destruct (Boolean cookies); reflexivity.
Qed.

(** X9.  In a collection without two documents of the same id, the access
    token a successful [signIn] answers resolves, in a bearer header and
    within its 15 minutes, to the very document the email belongs to. *)
Theorem sign_in_resolves
        (jl : jwt_round_trip) (hl : hex_round_trip)
        (email password : string) (cookies : option bool)
        (aS rS : string) (user : option User.t) (w check : World)
        (pair : AuthPayload.t) (header_cookies : option string) :
  aS <> ""%string ->
  unique_ids (users w) ->
  fst (signInMutation email password cookies (context aS rS user) w)
  = Return pair ->
  users check = users w ->
  now w <= now check < now w + 900 ->
  exists u : User.t,
    find (matches (by_email email)) (users w) = Some u
    /\ getActiveUser (bearer header_cookies (AuthPayload.accessToken pair))
                     aS rS generateUserModel check
       = (Return (Some u), check).
Proof.
  intros Hs Huniq Hrun Husers Hw.
  rewrite signInMutation_run in Hrun.
  destruct (find (matches (by_email email)) (users w)) as [u|] eqn:Hfind;
    [|discriminate].
  destruct (compare password (User.passwordHash u)); [|discriminate].
  destruct (usable aS rS); [|discriminate].
  cbn [fst] in Hrun. injection Hrun as <-.
  exists u. split; [reflexivity|].
  cbn [AuthPayload.accessToken issued_pair].
  rewrite getActiveUser_standard.
  rewrite (verify_issued jl
             (Payload.mk (Some (toHexString (User._id u))) None None None)
             "15min" w check Hs eq_refl Hw).
  cbn [Payload.userId]. rewrite (findUserById_hex hl). cbn [fst].
  rewrite Husers.
  rewrite (unique_ids_find u Huniq (proj1 (find_some _ _ Hfind))).
  reflexivity.
Qed.

(** *** Revocation, composed and framed *)

Lemma with_users_same (w : World) : with_users w (users w) = w.
Proof.
  destruct w; reflexivity.
Qed.

(** X10.  A revocation by a request that resolved the stored document,
    its counter a safe integer, answers [true]; the refresh token issued on
    the old count is from then on answered [null] by [refreshTokens], while
    the access token issued with it still resolves, within its 15 minutes,
    to the document, now on the next count. *)
Theorem revocation_spares_access_token
        (jl : jwt_round_trip) (hl : hex_round_trip)
        (aS rS : string) (u : User.t) (issue w : World)
        (access refresh : string) (cookies : option string) :
  aS <> ""%string ->
  rS <> ""%string ->
  now issue <= now w < now issue + 900 ->
  find (matches (by_id (User._id u))) (users w) = Some u ->
  safe_integer (User.count u) ->
  fst (TokenGenerator.accessToken (tokenGeneratorWithSecrets aS rS)
                                  (toHexString (User._id u)) issue)
  = Return access ->
  fst (TokenGenerator.refreshToken (tokenGeneratorWithSecrets aS rS)
                                   (toHexString (User._id u))
                                   (User.count u) issue)
  = Return refresh ->
  exists w' : World,
    invalidateTokensMutation (context aS rS (Some u)) w = (Return true, w')
    /\ refreshTokensMutation refresh (context aS rS None) w'
       = (Return None, w')
    /\ getActiveUser (bearer cookies access) aS rS generateUserModel w'
       = (Return (Some (apply_update (set_count (User.count u + 1)) u)), w').
Proof.
  intros Ha Hr Hw Hstored _ Haccess Hrefresh.
  cbn [TokenGenerator.accessToken TokenGenerator.refreshToken
       tokenGeneratorWithSecrets] in Haccess, Hrefresh.
  unfold accessTokenGenerator, refreshTokenGenerator, tokenGenerator
    in Haccess, Hrefresh.
  rewrite (sign_run _ _ _ Ha) in Haccess.
  rewrite (sign_run _ _ _ Hr) in Hrefresh.
  simpl in Haccess, Hrefresh.
  injection Haccess as <-. injection Hrefresh as <-.
  rewrite (invalidateTokensMutation_run hl).
  destruct (update_first_found (by_id (User._id u))
              (set_count (User.count u + 1)) (users w) Hstored)
    as [Hfind Hcount].
  destruct (update_first (by_id (User._id u))
              (set_count (User.count u + 1)) (users w)) as [us n].
  cbn [fst snd] in *. subst n. cbn [apply_update User.count] in *.
  assert (Hne : (User.count u + 1 =? User.count u) = false)
    by (apply Z.eqb_neq; lia).
  rewrite Hne. exists (with_users w us).
  assert (Hw7 : now issue <= now (with_users w us) < now issue + 604800)
    by (simpl; lia).
  assert (Hw15 : now issue <= now (with_users w us) < now issue + 900)
    by (simpl; lia).
  split; [reflexivity|]. split.
  - rewrite refreshTokensMutation_run.
    rewrite (verify_issued jl
               (Payload.mk (Some (toHexString (User._id u)))
                           (Some (User.count u)) None None)
               "7d" issue (with_users w us) Hr eq_refl Hw7).
    cbn [Payload.userId Payload.count].
    rewrite (findUserById_hex hl). cbn [fst users with_users].
    rewrite Hfind. cbn [User.count]. rewrite Hne. reflexivity.
  - rewrite getActiveUser_standard.
    rewrite (verify_issued jl
               (Payload.mk (Some (toHexString (User._id u))) None None None)
               "15min" issue (with_users w us) Ha eq_refl Hw15).
    cbn [Payload.userId]. rewrite (findUserById_hex hl).
    cbn [fst users with_users]. rewrite Hfind. reflexivity.
Qed.

(** X11.  A revocation changes no document but in its counter: ids,
    emails and password hashes stay as they are, in order; the response,
    the clock and the id generator are left alone; and the documents of
    other users than the one in the context are left as they were. *)
Theorem revocation_frame
        (aS rS : string) (user : option User.t) (w : World) :
  map identity (users (snd (invalidateTokensMutation
                              (context aS rS user) w)))
  = map identity (users w)
  /\ response (snd (invalidateTokensMutation (context aS rS user) w))
     = response w
  /\ now (snd (invalidateTokensMutation (context aS rS user) w)) = now w
  /\ fresh (snd (invalidateTokensMutation (context aS rS user) w))
     = fresh w
  /\ (hex_round_trip ->
      forall u x : User.t,
        user = Some u ->
        In x (users (snd (invalidateTokensMutation
                            (context aS rS user) w))) ->
        User._id x <> User._id u ->
        In x (users w)).
Proof.
  split; [|split; [|split; [|split]]].
  - destruct (invalidateTokensMutation_cases aS rS user w)
      as [-> | (q & d & ->)]; [reflexivity|].
    apply update_first_identity.
  - destruct (invalidateTokensMutation_cases aS rS user w)
      as [-> | (q & d & ->)]; reflexivity.
  - destruct (invalidateTokensMutation_cases aS rS user w)
      as [-> | (q & d & ->)]; reflexivity.
  - destruct (invalidateTokensMutation_cases aS rS user w)
      as [-> | (q & d & ->)]; reflexivity.
  - intros hl u x -> Hin Hother.
    rewrite (invalidateTokensMutation_run hl) in Hin. cbn [snd users
      with_users] in Hin.
    apply (update_first_others _ _ _ _ Hin).
    simpl. destruct (ObjectID_eq_dec (User._id x) (User._id u));
      [contradiction | reflexivity].
Qed.

(** X12.  A revocation without a resolved user, or for a user whose
    document is no longer in the collection, answers [false] and changes
    nothing. *)
Theorem revocation_not_found (aS rS : string) (w : World) :
  invalidateTokensMutation (context aS rS None) w = (Return false, w)
  /\ (hex_round_trip ->
      forall u : User.t,
        find (matches (by_id (User._id u))) (users w) = None ->
        invalidateTokensMutation (context aS rS (Some u)) w
        = (Return false, w)).
Proof.
  split; [reflexivity|].
  intros hl u Hnone.
  rewrite (invalidateTokensMutation_run hl).
  rewrite update_first_none by exact Hnone. cbn [fst snd].
  rewrite with_users_same. reflexivity.
Qed.

(** *** The invariants of the collection *)

Lemma find_none_ids o l :
  find (matches (by_id o)) l = None -> ~ In o (map User._id l).
Proof.
  intros Hnone Hin. apply in_map_iff in Hin. destruct Hin as (x & <- & Hx).
  pose proof (find_none _ _ Hnone x Hx) as Hm.
  rewrite matches_by_id_refl in Hm. discriminate.
Qed.

Lemma find_none_emails e l :
  find (matches (by_email e)) l = None -> ~ In e (map User.email l).
Proof.
  intros Hnone Hin. apply in_map_iff in Hin. destruct Hin as (x & <- & Hx).
  pose proof (find_none _ _ Hnone x Hx) as Hm.
  simpl in Hm. rewrite String.eqb_refl in Hm. discriminate.
Qed.

Lemma NoDup_snoc {A} (l : list A) (a : A) :
  NoDup l -> ~ In a l -> NoDup (l ++ [a]).
Proof.
  intros Hl Ha. apply NoDup_app.
  - exact Hl.
  - constructor; [intros [] | constructor].
  - intros b Hb [<-|[]]. exact (Ha Hb).
Qed.

(** The users collection after a sign-up: as it was, or with one document
    more, on counter 0. *)
Lemma signUpMutation_users email password cookies aS rS user w :
  users (snd (signUpMutation email password cookies (context aS rS user) w))
  = match find (matches (by_email email)) (users w),
          find (matches (by_id (fresh w))) (users w) with
    | None, None =>
        (users w ++ [User.mk (fresh w) email (hash password 10) 0])%list
    | _, _ => users w
    end.
Proof.
  rewrite signUpMutation_run.
  destruct (find (matches (by_email email)) (users w)); [reflexivity|].
  destruct (find (matches (by_id (fresh w))) (users w)); [reflexivity|].
  cbn zeta. destruct (usable aS rS); [|reflexivity].
  destruct (Boolean cookies); reflexivity.
Qed.

(** X13.  No resolver ever makes two documents share an id or an email:
    [signUp] and [invalidateTokens] keep both properties of the
    collection, and [signIn] and [refreshTokens] do not change the
    collection at all. *)
Theorem store_invariants
        (aS rS : string) (user : option User.t) (w : World)
        (email password refreshToken : string) (cookies : option bool) :
  unique_ids (users w) ->
  unique_emails (users w) ->
  (unique_ids (users (snd (signUpMutation email password cookies
                                          (context aS rS user) w)))
   /\ unique_emails (users (snd (signUpMutation email password cookies
                                                (context aS rS user) w))))
  /\ (unique_ids (users (snd (invalidateTokensMutation
                                (context aS rS user) w)))
      /\ unique_emails (users (snd (invalidateTokensMutation
                                      (context aS rS user) w))))
  /\ users (snd (signInMutation email password cookies
                                (context aS rS user) w)) = users w
  /\ users (snd (refreshTokensMutation refreshToken
                                       (context aS rS user) w)) = users w.
Proof.
  intros Hids Hemails. split; [|split; [|split]].
  - rewrite signUpMutation_users.
    destruct (find (matches (by_email email)) (users w)) eqn:He;
      [split; assumption|].
    destruct (find (matches (by_id (fresh w))) (users w)) eqn:Hi;
      [split; assumption|].
    unfold unique_ids, unique_emails. rewrite !map_app. cbn [map User._id
      User.email].
    split; apply NoDup_snoc; try assumption.
    + apply find_none_ids. exact Hi.
    + apply find_none_emails. exact He.
  - assert (Hid : map identity (users (snd (invalidateTokensMutation
                                              (context aS rS user) w)))
                  = map identity (users w)).
    { destruct (invalidateTokensMutation_cases aS rS user w)
        as [-> | (q & d & ->)]; [reflexivity|].
      apply update_first_identity. }
    unfold unique_ids, unique_emails.
    rewrite (map_identity_ids _ _ Hid), (map_identity_emails _ _ Hid).
    split; assumption.
  - rewrite signInMutation_run.
    destruct (find (matches (by_email email)) (users w)) as [u|];
      [|reflexivity].
    destruct (compare password (User.passwordHash u)); [|reflexivity].
    destruct (usable aS rS); [|reflexivity].
    cbn zeta. destruct (Boolean cookies); reflexivity.
  - rewrite refreshTokensMutation_run. reflexivity.
Qed.

(** *** Sign-up, composed *)

(** X14.  A sign-up never disturbs what is there: every query by email or
    by id that found a document before finds the same document after. *)
Theorem sign_up_keeps_existing
        (email password : string) (cookies : option bool)
        (aS rS : string) (user : option User.t) (w : World)
        (q : Filter) (found : User.t) :
  find (matches q) (users w) = Some found ->
  find (matches q)
       (users (snd (signUpMutation email password cookies
                                   (context aS rS user) w)))
  = Some found.
Proof.
  intros Hfound. rewrite signUpMutation_users.
  destruct (find (matches (by_email email)) (users w)); [exact Hfound|].
  destruct (find (matches (by_id (fresh w))) (users w)); [exact Hfound|].
  apply find_app_some. exact Hfound.
Qed.

(** X15.  After a sign-up that created the account, the account is there:
    [isUser] answers [true] for the email, and the look-ups by the email
    and by the hexadecimal form of the new id both return the new
    document, which has counter 0. *)
Theorem created_user_found
        (hl : hex_round_trip)
        (email password : string) (cookies : option bool)
        (aS rS : string) (user : option User.t) (w : World) :
  find (matches (by_email email)) (users w) = None ->
  find (matches (by_id (fresh w))) (users w) = None ->
  let w1 := snd (signUpMutation email password cookies
                                (context aS rS user) w) in
  let doc := User.mk (fresh w) email (hash password 10) 0 in
  isUser email w1 = (Return true, w1)
  /\ findUserByEmail email w1 = (Return (Some doc), w1)
  /\ findUserById (Some (toHexString (fresh w))) w1
     = (Return (Some doc), w1).
Proof.
  intros He Hi w1 doc.
  assert (Husers : users w1 = (users w ++ [doc])%list).
  { unfold w1. rewrite signUpMutation_users, He, Hi. reflexivity. }
  assert (Hbe : find (matches (by_email email)) (users w1) = Some doc).
  { rewrite Husers, (find_app_none _ _ _ He). simpl.
    rewrite String.eqb_refl. reflexivity. }
  assert (Hbi : find (matches (by_id (fresh w))) (users w1) = Some doc).
  { rewrite Husers, (find_app_none _ _ _ Hi).
    change (fresh w) with (User._id doc) at 1. cbn [find].
    rewrite matches_by_id_refl. reflexivity. }
  split; [|split].
  - unfold isUser, bind, findUserByEmail, findOne, ret. rewrite Hbe.
    reflexivity.
  - unfold findUserByEmail, findOne. rewrite Hbe. reflexivity.
  - rewrite (findUserById_hex hl). rewrite Hbi. reflexivity.
Qed.

(** X16.  With a bcryptjs that compares a password equal to its own hash
    and both secrets there: after a sign-up that created the account, a
    sign-in with the same email and password answers a pair for the new id
    on count 0, and a second sign-up with the email throws. *)
Theorem sign_up_then_sign_in
        (bl : bcrypt_sound)
        (email password other : string) (c1 c2 c3 : option bool)
        (aS rS : string) (user : option User.t) (w : World) :
  aS <> ""%string ->
  rS <> ""%string ->
  find (matches (by_email email)) (users w) = None ->
  find (matches (by_id (fresh w))) (users w) = None ->
  let w1 := snd (signUpMutation email password c1 (context aS rS user) w) in
  fst (signInMutation email password c2 (context aS rS user) w1)
  = Return (issued_pair (fresh w) 0 aS rS (now w))
  /\ signUpMutation email other c3 (context aS rS user) w1
     = (Throw (Error ("User with " ++ email ++ " already exists")), w1).
Proof.
  intros Ha Hr He Hi w1.
  set (doc := User.mk (fresh w) email (hash password 10) 0).
  assert (Husers : users w1 = (users w ++ [doc])%list).
  { unfold w1. rewrite signUpMutation_users, He, Hi. reflexivity. }
  assert (Hnow : now w1 = now w).
  { unfold w1. rewrite signUpMutation_run, He, Hi, (usable_intro Ha Hr).
    cbn zeta. destruct (Boolean c1); reflexivity. }
  assert (Hbe : find (matches (by_email email)) (users w1) = Some doc).
  { rewrite Husers, (find_app_none _ _ _ He). simpl.
    rewrite String.eqb_refl. reflexivity. }
  split.
  - rewrite signInMutation_run, Hbe. cbn [User.passwordHash doc].
    unfold doc at 1. cbn [User.passwordHash]. rewrite (bl password 10).
    rewrite (usable_intro Ha Hr).
    cbn zeta. cbn [fst]. rewrite Hnow. reflexivity.
  - rewrite signUpMutation_run, Hbe. reflexivity.
Qed.

(** *** What is thrown *)

Lemma findUserById_outcome id w :
  fst (findUserById id w)
  = match id with
    | None => Return (find (matches (by_id (fresh w))) (users w))
    | Some s =>
        match ObjectID_parse s with
        | Some o => Return (find (matches (by_id o)) (users w))
        | None => Throw invalid_id
        end
    end.
Proof.
  unfold findUserById, bind, new_ObjectID, findOne, ret, throw.
  destruct id as [s|]; [destruct (ObjectID_parse s)|]; reflexivity.
Qed.

(** X18.  A token that verifies under the access secret and embeds an
    id [new ObjectID] refuses makes [getActiveUser] reject with the error
    of [new ObjectID], the world as it was: the token of the authorization
    header, [Bearer ] removed, and, without a header, the access cookie;
    their look-up is returned without being awaited inside the [try].
    The same id in a refresh cookie that verifies, the access cookie
    failing, is answered [null]: that look-up is awaited inside the
    [try]. *)
Theorem getActiveUser_throws
        (req : IncomingMessage) (aS rS : string) (w : World)
        (p : Payload.t) (s : string) :
  Payload.userId p = Some s ->
  ObjectID_parse s = None ->
  (forall header : string,
      authorization req = Some header ->
      header <> ""%string ->
      fst (verify (Some (replace "Bearer " "" header)) aS w) = Return p ->
      getActiveUser req aS rS generateUserModel w
      = (Throw invalid_id, w))
  /\ (truthy (authorization req) = None ->
      fst (verify (parse (or_empty (cookie req)) "access-token") aS w)
      = Return p ->
      getActiveUser req aS rS generateUserModel w
      = (Throw invalid_id, w))
  /\ (forall e : exn,
        truthy (authorization req) = None ->
        fst (verify (parse (or_empty (cookie req)) "access-token") aS w)
        = Throw e ->
        fst (verify (parse (or_empty (cookie req)) "refresh-token") rS w)
        = Return p ->
        getActiveUser req aS rS generateUserModel w = (Return None, w)).
Proof.
  intros Hs Hp.
  assert (Hlookup : fst (findUserById (Payload.userId p) w)
                    = Throw invalid_id).
  { rewrite findUserById_outcome, Hs, Hp. reflexivity. }
  split; [|split].
  - intros header Hh Hne Hv.
    rewrite (getActiveUser_bearer req aS rS w Hh Hne), Hv, Hlookup.
    reflexivity.
  - intros Hauth Haccess.
    rewrite (getActiveUser_access req aS rS w Hauth Haccess), Hlookup.
    reflexivity.
  - intros e Hauth Haccess Hrefresh.
    rewrite (getActiveUser_refresh req aS rS w Hauth Haccess Hrefresh),
            Hlookup.
    reflexivity.
Qed.

(** X19.  [refreshTokens] rejects, the world as it was, with the error of
    [new ObjectID] when the token verifies as a refresh token and embeds
    an id [new ObjectID] refuses, its look-up being awaited outside any
    [try]; and with the error of jsonwebtoken when the token is good for a
    renewal and the access secret is empty, the signing being outside any
    [try] too. *)
Theorem refresh_tokens_throws
        (refreshToken aS rS : string) (user : option User.t) (w : World) :
  (forall (p : Payload.t) (s : string),
      fst (verify (Some refreshToken) rS w) = Return p ->
      Payload.userId p = Some s ->
      ObjectID_parse s = None ->
      refreshTokensMutation refreshToken (context aS rS user) w
      = (Throw invalid_id, w))
  /\ (forall (p : Payload.t) (u : User.t),
        renewable refreshToken rS w p u ->
        aS = ""%string ->
        refreshTokensMutation refreshToken (context aS rS user) w
        = (Throw no_secret, w)).
Proof.
  split.
  - intros p s Hv Hs Hp.
    rewrite refreshTokensMutation_run, Hv, findUserById_outcome, Hs, Hp.
    reflexivity.
  - intros p u (Hv & Hu & Hc) ->.
    rewrite refreshTokensMutation_run, Hv, Hu, Hc, Z.eqb_refl.
    reflexivity.
Qed.

(** *** findUser *)

(** X17.  [findUser] with an id never throws and returns the first
    document with that id, whatever email comes with it; without an id it
    returns the first document with the email, the empty string standing
    for a missing email. *)
Theorem findUser_by_id_or_email
        (hl : hex_round_trip) (selectors : FindUserSelectors.t) (w : World) :
  findUser selectors w
  = (Return
       (find (matches
                match FindUserSelectors.id selectors with
                | Some id => by_id id
                | None =>
                    by_email match FindUserSelectors.email selectors with
                             | Some e => e
                             | None => ""%string
                             end
                end)
             (users w)), w).
Proof.
  unfold findUser.
  destruct (FindUserSelectors.id selectors) as [o|].
  - apply (findUserById_hex hl).
  - reflexivity.
Qed.

End Further.

(* ===================================================================== *)
(** ** The further properties at work on the scenario *)

Section FurtherRuns.
#[local] Existing Instance Sample.bson.
#[local] Existing Instance Sample.jwt.
#[local] Existing Instance Sample.cookie_pkg.
#[local] Existing Instance Sample.bcrypt.

Lemma sample_bcrypt_law : @bcrypt_sound Sample.bcrypt.
Proof.
  intros password rounds. cbn [compare hash Sample.bcrypt].
  unfold Sample.sample_compare, Sample.sample_hash.
  apply String.eqb_refl.
Qed.

Lemma alice_alone_ids : unique_ids (users world1).
Proof.
  unfold unique_ids. simpl. constructor; [intros [] | constructor].
Defined.

Lemma alice_alone_emails : unique_emails (users world1).
Proof.
  unfold unique_emails. simpl. constructor; [intros [] | constructor].
Defined.

(** [alice]'s refresh token verifies to her id and count 0. *)
Lemma refresh_token_round_trip_witness :
  refreshSecret <> ""%string
  /\ now world0 <= now world1 < now world0 + 604800
  /\ fst (TokenGenerator.refreshToken
            (tokenGeneratorWithSecrets accessSecret refreshSecret)
            "aaa" 0 world0)
     = Return alice_refresh
  /\ TokenGenerator.verifyRefreshToken
       (tokenGeneratorWithSecrets accessSecret refreshSecret)
       alice_refresh world1
     = (Return (Some (VerifiedRefreshToken.mk (Some "aaa"%string) (Some 0))),
        world1).
Proof.
  assert (H1 : refreshSecret <> ""%string) by discriminate.
  assert (H2 : now world0 <= now world1 < now world0 + 604800)
    by (simpl; lia).
  assert (H3 : fst (TokenGenerator.refreshToken
                      (tokenGeneratorWithSecrets accessSecret refreshSecret)
                      "aaa" 0 world0)
               = Return alice_refresh) by reflexivity.
  exact (conj H1 (conj H2 (conj H3
           (refresh_token_round_trip SampleFacts.jwt_law accessSecret
                                     "aaa" 0 world0 world1 H1 H2 H3)))).
Defined.

(** [alice]'s access cookie resolves to her and rotates nothing. *)
Lemma access_cookie_decides_witness :
  truthy (authorization access_request) = None
  /\ fst (verify (parse (or_empty (cookie access_request)) "access-token")
                 accessSecret world1)
     = Return alice_access_payload
  /\ getActiveUser access_request accessSecret refreshSecret
                   generateUserModel world1
     = (fst (findUserById (Payload.userId alice_access_payload) world1),
        world1)
  /\ fst (findUserById (Payload.userId alice_access_payload) world1)
     = Return (Some alice).
Proof.
  assert (H1 : truthy (authorization access_request) = None) by reflexivity.
  assert (H2 : fst (verify (parse (or_empty (cookie access_request))
                                  "access-token") accessSecret world1)
               = Return alice_access_payload) by reflexivity.
  exact (conj H1 (conj H2 (conj
           (access_cookie_decides access_request accessSecret refreshSecret
                                  world1 H1 H2)
           eq_refl))).
Defined.

(** [alice]'s access token, in a bearer header, resolves to her. *)
Lemma issued_access_token_resolves_witness :
  accessSecret <> ""%string
  /\ now world0 <= now world1 < now world0 + 900
  /\ fst (TokenGenerator.accessToken
            (tokenGeneratorWithSecrets accessSecret refreshSecret)
            (toHexString (User._id alice)) world0)
     = Return alice_access
  /\ getActiveUser (bearer None alice_access) accessSecret refreshSecret
                   generateUserModel world1
     = (Return (find (matches (by_id (User._id alice))) (users world1)),
        world1)
  /\ find (matches (by_id (User._id alice))) (users world1) = Some alice.
Proof.
  assert (H1 : accessSecret <> ""%string) by discriminate.
  assert (H2 : now world0 <= now world1 < now world0 + 900)
    by (simpl; lia).
  assert (H3 : fst (TokenGenerator.accessToken
                      (tokenGeneratorWithSecrets accessSecret refreshSecret)
                      (toHexString (User._id alice)) world0)
               = Return alice_access) by reflexivity.
  exact (conj H1 (conj H2 (conj H3 (conj
           (issued_access_token_resolves SampleFacts.jwt_law
              SampleFacts.hex_law None refreshSecret
              (User._id alice) world0 world1 H1 H2 H3)
           eq_refl)))).
Defined.

(** [alice]'s refresh token is honoured while her counter is 0. *)
Lemma issued_refresh_token_renews_witness :
  accessSecret <> ""%string
  /\ refreshSecret <> ""%string
  /\ now world0 <= now world1 < now world0 + 604800
  /\ fst (TokenGenerator.refreshToken
            (tokenGeneratorWithSecrets accessSecret refreshSecret)
            (toHexString (User._id alice)) 0 world0)
     = Return alice_refresh
  /\ find (matches (by_id (User._id alice))) (users world1) = Some alice
  /\ refreshTokensMutation alice_refresh
                           (context accessSecret refreshSecret None) world1
     = (Return (if User.count alice =? 0
                then Some (issued_pair (User._id alice) 0 accessSecret
                                       refreshSecret (now world1))
                else None), world1).
Proof.
  assert (H1 : refreshSecret <> ""%string) by discriminate.
  assert (H2 : now world0 <= now world1 < now world0 + 604800)
    by (simpl; lia).
  assert (H3 : fst (TokenGenerator.refreshToken
                      (tokenGeneratorWithSecrets accessSecret refreshSecret)
                      (toHexString (User._id alice)) 0 world0)
               = Return alice_refresh) by reflexivity.
  assert (H4 : find (matches (by_id (User._id alice))) (users world1)
               = Some alice) by reflexivity.
  assert (Ha : accessSecret <> ""%string) by discriminate.
  exact (conj Ha (conj H1 (conj H2 (conj H3 (conj H4
           (issued_refresh_token_renews SampleFacts.jwt_law
              SampleFacts.hex_law None (User._id alice) 0 world0 world1
              Ha H1 H2 H3 H4)))))).
Defined.

(** [alice]'s refresh cookie renews her session while her counter is 0. *)
Lemma issued_refresh_cookie_renews_witness :
  accessSecret <> ""%string
  /\ refreshSecret <> ""%string
  /\ now world0 <= now world1 < now world0 + 604800
  /\ fst (TokenGenerator.refreshToken
            (tokenGeneratorWithSecrets accessSecret refreshSecret)
            (toHexString (User._id alice)) 0 world0)
     = Return alice_refresh
  /\ find (matches (by_id (User._id alice))) (users world1) = Some alice
  /\ truthy (authorization refresh_request) = None
  /\ fst (verify (parse (or_empty (cookie refresh_request)) "access-token")
                 accessSecret world1)
     = Throw (JsonWebTokenError "jwt must be provided")
  /\ parse (or_empty (cookie refresh_request)) "refresh-token"
     = Some alice_refresh
  /\ fst (getActiveUser refresh_request accessSecret refreshSecret
                        generateUserModel world1)
     = Return (Some alice).
Proof.
  assert (H1 : refreshSecret <> ""%string) by discriminate.
  assert (H2 : now world0 <= now world1 < now world0 + 604800)
    by (simpl; lia).
  assert (H3 : fst (TokenGenerator.refreshToken
                      (tokenGeneratorWithSecrets accessSecret refreshSecret)
                      (toHexString (User._id alice)) 0 world0)
               = Return alice_refresh) by reflexivity.
  assert (H4 : find (matches (by_id (User._id alice))) (users world1)
               = Some alice) by reflexivity.
  assert (H5 : truthy (authorization refresh_request) = None)
    by reflexivity.
  assert (H6 : fst (verify (parse (or_empty (cookie refresh_request))
                                  "access-token") accessSecret world1)
               = Throw (JsonWebTokenError "jwt must be provided"))
    by reflexivity.
  assert (H7 : parse (or_empty (cookie refresh_request)) "refresh-token"
               = Some alice_refresh) by reflexivity.
  assert (Ha : accessSecret <> ""%string) by discriminate.
  refine (conj Ha (conj H1 (conj H2 (conj H3 (conj H4 (conj H5 (conj H6
            (conj H7 _)))))))).
  rewrite (issued_refresh_cookie_renews SampleFacts.jwt_law
             SampleFacts.hex_law refresh_request
             (User._id alice) 0 world0 world1 Ha H1 H2 H3 H4 H5 H6 H7).
  reflexivity.
Defined.

(** [alice] signs in; her access token resolves to her. *)
Lemma sign_in_resolves_witness :
  accessSecret <> ""%string
  /\ unique_ids (users world1)
  /\ fst (signInMutation "a@x.com" "pw" None
                         (context accessSecret refreshSecret None) world1)
     = Return (issued_pair (User._id alice) 0 accessSecret refreshSecret 100)
  /\ users world1 = users world1
  /\ now world1 <= now world1 < now world1 + 900
  /\ exists u : User.t,
       find (matches (by_email "a@x.com")) (users world1) = Some u
       /\ getActiveUser
            (bearer None
               (AuthPayload.accessToken
                  (issued_pair (User._id alice) 0 accessSecret
                               refreshSecret 100)))
            accessSecret refreshSecret generateUserModel world1
          = (Return (Some u), world1).
Proof.
  assert (H1 : accessSecret <> ""%string) by discriminate.
  assert (H3 : fst (signInMutation "a@x.com" "pw" None
                      (context accessSecret refreshSecret None) world1)
               = Return (issued_pair (User._id alice) 0 accessSecret
                                     refreshSecret 100)) by reflexivity.
  assert (H5 : now world1 <= now world1 < now world1 + 900)
    by (simpl; lia).
  exact (conj H1 (conj alice_alone_ids (conj H3 (conj eq_refl (conj H5
           (sign_in_resolves SampleFacts.jwt_law SampleFacts.hex_law
              "a@x.com" "pw" None refreshSecret None world1 world1 None
              H1 alice_alone_ids H3 eq_refl H5)))))).
Defined.

(** [alice] revokes: her refresh token is dead, her access token lives. *)
Lemma revocation_spares_access_token_witness :
  accessSecret <> ""%string
  /\ refreshSecret <> ""%string
  /\ now world0 <= now world1 < now world0 + 900
  /\ find (matches (by_id (User._id alice))) (users world1) = Some alice
  /\ safe_integer (User.count alice)
  /\ fst (TokenGenerator.accessToken
            (tokenGeneratorWithSecrets accessSecret refreshSecret)
            (toHexString (User._id alice)) world0)
     = Return alice_access
  /\ fst (TokenGenerator.refreshToken
            (tokenGeneratorWithSecrets accessSecret refreshSecret)
            (toHexString (User._id alice)) (User.count alice) world0)
     = Return alice_refresh
  /\ exists w' : World,
       invalidateTokensMutation
         (context accessSecret refreshSecret (Some alice)) world1
       = (Return true, w')
       /\ refreshTokensMutation alice_refresh
            (context accessSecret refreshSecret None) w'
          = (Return None, w')
       /\ getActiveUser (bearer None alice_access) accessSecret
                        refreshSecret generateUserModel w'
          = (Return (Some alice_revoked), w').
Proof.
  assert (H1 : accessSecret <> ""%string) by discriminate.
  assert (H2 : refreshSecret <> ""%string) by discriminate.
  assert (H3 : now world0 <= now world1 < now world0 + 900)
    by (simpl; lia).
  assert (H4 : find (matches (by_id (User._id alice))) (users world1)
               = Some alice) by reflexivity.
  assert (H5 : fst (TokenGenerator.accessToken
                      (tokenGeneratorWithSecrets accessSecret refreshSecret)
                      (toHexString (User._id alice)) world0)
               = Return alice_access) by reflexivity.
  assert (H6 : fst (TokenGenerator.refreshToken
                      (tokenGeneratorWithSecrets accessSecret refreshSecret)
                      (toHexString (User._id alice)) (User.count alice)
                      world0)
               = Return alice_refresh) by reflexivity.
  assert (Hs : safe_integer (User.count alice))
    by (unfold safe_integer; simpl; lia).
  exact (conj H1 (conj H2 (conj H3 (conj H4 (conj Hs (conj H5 (conj H6
           (revocation_spares_access_token SampleFacts.jwt_law
              SampleFacts.hex_law world0 world1 None
              H1 H2 H3 H4 Hs H5 H6)))))))).
Defined.

(** The collection of [alice] alone keeps its ids and emails apart
    through a sign-up and a revocation. *)
Lemma store_invariants_witness :
  unique_ids (users world1)
  /\ unique_emails (users world1)
  /\ unique_ids (users (snd (signUpMutation "b@x.com" "pw2" None
                               (context accessSecret refreshSecret
                                        (Some alice)) world1)))
  /\ unique_emails (users (snd (invalidateTokensMutation
                                  (context accessSecret refreshSecret
                                           (Some alice)) world1))).
Proof.
  pose proof (store_invariants accessSecret refreshSecret (Some alice)
                world1 "b@x.com" "pw2" alice_refresh None
                alice_alone_ids alice_alone_emails) as H.
  exact (conj alice_alone_ids (conj alice_alone_emails
           (conj (proj1 (proj1 H)) (proj2 (proj1 (proj2 H)))))).
Defined.

(** [alice] is still found by her email after [bob] signed up. *)
Lemma sign_up_keeps_existing_witness :
  find (matches (by_email "a@x.com")) (users world1) = Some alice
  /\ find (matches (by_email "a@x.com"))
          (users (snd (signUpMutation "b@x.com" "pw2" None
                         (context accessSecret refreshSecret None) world1)))
     = Some alice.
Proof.
  assert (H1 : find (matches (by_email "a@x.com")) (users world1)
               = Some alice) by reflexivity.
  exact (conj H1
           (sign_up_keeps_existing "b@x.com" "pw2" None accessSecret
              refreshSecret None world1 (by_email "a@x.com") H1)).
Defined.

(** [bob] is found after his sign-up. *)
Lemma created_user_found_witness :
  find (matches (by_email "b@x.com")) (users world1) = None
  /\ find (matches (by_id (fresh world1))) (users world1) = None
  /\ let w1 := snd (signUpMutation "b@x.com" "pw2" None
                      (context accessSecret refreshSecret None) world1) in
     isUser "b@x.com" w1 = (Return true, w1)
     /\ findUserByEmail "b@x.com" w1 = (Return (Some bob), w1)
     /\ findUserById (Some (toHexString (fresh world1))) w1
        = (Return (Some bob), w1).
Proof.
  assert (H1 : find (matches (by_email "b@x.com")) (users world1) = None)
    by reflexivity.
  assert (H2 : find (matches (by_id (fresh world1))) (users world1) = None)
    by reflexivity.
  exact (conj H1 (conj H2
           (created_user_found SampleFacts.hex_law "b@x.com" "pw2" None
              accessSecret refreshSecret None world1 H1 H2))).
Defined.

(** [bob] signs up, then signs in; a second sign-up is refused. *)
Lemma sign_up_then_sign_in_witness :
  accessSecret <> ""%string
  /\ refreshSecret <> ""%string
  /\ find (matches (by_email "b@x.com")) (users world1) = None
  /\ find (matches (by_id (fresh world1))) (users world1) = None
  /\ let w1 := snd (signUpMutation "b@x.com" "pw2" None
                      (context accessSecret refreshSecret None) world1) in
     fst (signInMutation "b@x.com" "pw2" None
                         (context accessSecret refreshSecret None) w1)
     = Return (issued_pair (fresh world1) 0 accessSecret refreshSecret
                           (now world1))
     /\ signUpMutation "b@x.com" "other" None
                       (context accessSecret refreshSecret None) w1
        = (Throw (Error ("User with " ++ "b@x.com" ++ " already exists")),
           w1).
Proof.
  assert (H1 : find (matches (by_email "b@x.com")) (users world1) = None)
    by reflexivity.
  assert (H2 : find (matches (by_id (fresh world1))) (users world1) = None)
    by reflexivity.
  assert (Ha : accessSecret <> ""%string) by discriminate.
  assert (Hr : refreshSecret <> ""%string) by discriminate.
  exact (conj Ha (conj Hr (conj H1 (conj H2
           (sign_up_then_sign_in sample_bcrypt_law "b@x.com" "pw2" "other"
              None None None None world1 Ha Hr H1 H2))))).
Defined.

(** [findUser] with [alice]'s id finds her, whatever the email. *)
Lemma findUser_by_id_or_email_witness :
  findUser (FindUserSelectors.mk (Some "b@x.com"%string)
                                 (Some (User._id alice))) world1
  = (Return (Some alice), world1).
Proof.
  rewrite (findUser_by_id_or_email SampleFacts.hex_law
             (FindUserSelectors.mk (Some "b@x.com"%string)
                                   (Some (User._id alice))) world1).
  reflexivity.
Defined.

(** A signed access token with a malformed id, in a bearer header, makes
    [getActiveUser] reject. *)
Lemma getActiveUser_throws_witness :
  Payload.userId (Payload.mk (Some "zz"%string) None (Some 0) (Some 900))
  = Some "zz"%string
  /\ ObjectID_parse "zz" = None
  /\ authorization (bearer None odd_access)
     = Some ("Bearer " ++ odd_access)%string
  /\ fst (verify (Some (replace "Bearer " "" ("Bearer " ++ odd_access)))
                 accessSecret world1)
     = Return (Payload.mk (Some "zz"%string) None (Some 0) (Some 900))
  /\ getActiveUser (bearer None odd_access) accessSecret refreshSecret
                   generateUserModel world1
     = (Throw invalid_id, world1).
Proof.
  assert (H1 : Payload.userId
                 (Payload.mk (Some "zz"%string) None (Some 0) (Some 900))
               = Some "zz"%string) by reflexivity.
  assert (H2 : ObjectID_parse "zz" = None) by reflexivity.
  assert (H3 : authorization (bearer None odd_access)
               = Some ("Bearer " ++ odd_access)%string) by reflexivity.
  assert (H4 : ("Bearer " ++ odd_access)%string <> ""%string)
    by discriminate.
  assert (H5 : fst (verify (Some (replace "Bearer " ""
                                          ("Bearer " ++ odd_access)))
                           accessSecret world1)
               = Return (Payload.mk (Some "zz"%string) None (Some 0)
                                    (Some 900))) by reflexivity.
  exact (conj H1 (conj H2 (conj H3 (conj H5
           (proj1 (getActiveUser_throws (bearer None odd_access)
                     accessSecret refreshSecret world1
                     (Payload.mk (Some "zz"%string) None (Some 0)
                                 (Some 900)) H1 H2)
                  ("Bearer " ++ odd_access)%string H3 H4 H5))))).
Defined.

(** A signed refresh token with a malformed id makes [refreshTokens]
    reject; so does [alice]'s own refresh token when the access secret is
    empty. *)
Lemma refresh_tokens_throws_witness :
  fst (verify (Some odd_refresh) refreshSecret world1)
  = Return (Payload.mk (Some "zz"%string) (Some 0) (Some 0) (Some 604800))
  /\ ObjectID_parse "zz" = None
  /\ refreshTokensMutation odd_refresh
                           (context accessSecret refreshSecret None) world1
     = (Throw invalid_id, world1)
  /\ renewable alice_refresh refreshSecret world1 alice_refresh_payload alice
  /\ refreshTokensMutation alice_refresh (context "" refreshSecret None)
                           world1
     = (Throw no_secret, world1).
Proof.
  assert (H1 : fst (verify (Some odd_refresh) refreshSecret world1)
               = Return (Payload.mk (Some "zz"%string) (Some 0) (Some 0)
                                    (Some 604800))) by reflexivity.
  assert (H2 : ObjectID_parse "zz" = None) by reflexivity.
  assert (H3 : renewable alice_refresh refreshSecret world1
                         alice_refresh_payload alice)
    by (repeat split).
  exact (conj H1 (conj H2 (conj
           (proj1 (refresh_tokens_throws odd_refresh accessSecret
                     refreshSecret None world1) _ _ H1 eq_refl H2)
           (conj H3
              (proj2 (refresh_tokens_throws alice_refresh "" refreshSecret
                        None world1) _ _ H3 eq_refl))))).
Defined.

End FurtherRuns.
